(** * creditcard: PAN construction, issuer classification and validation

    A shallow embedding of the Go package [creditcard] (files [type.go] and
    [info_func.go]) together with the properties its specification states.

    Conventions of the embedding:
    - a Go [string] is a sequence of bytes: Rocq's [string] (a list of
      8-bit [ascii]); [len] is [String.length];
    - a Go [byte] is a [Z] in [0, 256) and every arithmetic operation on
      it is followed by an explicit reduction modulo 256;
    - a function returning [(T, error)] or [error] returns a [result]:
      [Ok v] for a nil error, [Err e] for a non-nil one; a run-time panic
      (index or slice out of range) is the third outcome [Panic];
    - a slice [[]string] is a [list string], read with [!!] and written
      with [<[ i := v ]>]; the array [[4]string] is the record [array4];
    - the regular expressions are values of a small syntax [regex] that
      are run by a backtracking matcher. *)

From Stdlib Require Import ZArith Lia Bool Ascii String.
From stdpp Require Import base list strings.
From Equations Require Import Equations.

(** ** type.go *)

(** [type CardType int] and its constant block ([iota] is the index of the
    constant in the block, so [beginKnownCardType] is 1). *)
Definition CardType : Type := Z.

Definition UnknownCardType : CardType := (-1)%Z.
Definition beginKnownCardType : CardType := 1%Z.
Definition VISACard : CardType := 2%Z.
Definition MasterCard : CardType := 3%Z.
Definition JCBCard : CardType := 4%Z.
Definition AmericanExpress : CardType := 5%Z.
Definition UnionPay : CardType := 6%Z.
Definition endKnownCardType : CardType := 7%Z.

(** [asCardType]: a value outside the known card types becomes
    [UnknownCardType]. *)
Definition asCardType (t : CardType) : CardType :=
  if (t <=? beginKnownCardType)%Z then UnknownCardType
  else if (t >? endKnownCardType)%Z then UnknownCardType
  else t.

(** [type ErrPANFormat string] and the five errors of the package. *)
Definition ErrPANFormat : Type := string.

(** The method [Error] of [ErrPANFormat]. *)
Definition Error (e : ErrPANFormat) : string :=
  "creditcard: incorrect pan format: " +:+ e.

Definition ErrSection : ErrPANFormat :=
  "there must be 4 sections in PAN, each section must be 4 digits".
Definition ErrRaw : ErrPANFormat :=
  "raw pan must be 16 digits or asterisks".
Definition ErrMasked : ErrPANFormat :=
  "masked pan must be first 6 digits and last 4 digits".
Definition ErrValidateMasked : ErrPANFormat :=
  "masked pan cannot be validated".
Definition ErrValidate : ErrPANFormat :=
  "invalid pan".

(** The fixed-size array [[4]string]. *)
Record array4 : Type := Array4 {
  at0 : string;
  at1 : string;
  at2 : string;
  at3 : string
}.

(** [pan[:]], the array seen as a slice. *)
Definition to_slice (a : array4) : list string :=
  [at0 a; at1 a; at2 a; at3 a].

(** [type info struct { pan [4]string; typ CardType }] *)
Record info : Type := mkInfo {
  pan : array4;
  typ : CardType
}.

(** ** Outcomes of a call *)

Inductive result (A : Type) : Type :=
| Ok (a : A)
| Err (e : ErrPANFormat)
| Panic.

Arguments Ok {A} a.
Arguments Err {A} e.
Arguments Panic {A}.

(** Sequencing: an error or a panic ends the call. With the instance,
    [x ← r; k] is stdpp's notation for it. *)
#[global] Instance result_bind : MBind result :=
  fun A B (k : A -> result B) (r : result A) =>
    match r with
    | Ok a => k a
    | Err e => Err e
    | Panic => Panic
    end.

(** An access that panics when the position does not exist. *)
Definition or_panic {A : Type} (o : option A) : result A :=
  match o with
  | Some a => Ok a
  | None => Panic
  end.

(** ** Bytes and strings of the Go runtime and of package [strings] *)

Definition byte_of (c : ascii) : Z := Z.of_N (N_of_ascii c).

(** Reduction of an arithmetic result to the type [byte]. *)
Definition wrap8 (z : Z) : Z := (z mod 256)%Z.

(** [len(s)], the number of bytes. *)
Abbreviation len := String.length (only parsing).

(** [s[lo:hi]]; it panics unless [lo <= hi <= len(s)]. *)
Definition slice (s : string) (lo hi : nat) : result string :=
  if (lo <=? hi) && (hi <=? len s)
  then Ok (String.substring lo (hi - lo) s)
  else Panic.

(** [s[lo:]] and [s[:hi]]. *)
Definition slice_from (s : string) (lo : nat) : result string :=
  slice s lo (len s).
Definition slice_to (s : string) (hi : nat) : result string :=
  slice s 0 hi.

(** [s[i]], a byte. *)
Definition byte_at (s : string) (i : nat) : result Z :=
  or_panic (byte_of <$> String.get i s).

(** [[]byte(s)] *)
Fixpoint bytes (s : string) : list Z :=
  match s with
  | EmptyString => []
  | String c s' => byte_of c :: bytes s'
  end.

(** [strings.Repeat(s, count)] for a count that is not negative. *)
Fixpoint Repeat (s : string) (count : nat) : string :=
  match count with
  | O => ""
  | S n => s +:+ Repeat s n
  end.

(** [strings.Join(elems, sep)] *)
Fixpoint Join (elems : list string) (sep : string) : string :=
  match elems with
  | [] => ""
  | [e] => e
  | e :: rest => e +:+ sep +:+ Join rest sep
  end.

(** [strings.Index(s, substr)]: the position of the first occurrence of
    [substr] in [s], or -1. *)
Definition Index (s substr : string) : Z :=
  match String.index 0 substr s with
  | Some n => Z.of_nat n
  | None => (-1)%Z
  end.

(** [strings.Split(s, "-")]: the fragments between the separators; there is
    one more fragment than there are separators, so the empty string gives
    one empty fragment. The first argument of [split_from] is the fragment
    read so far, in reverse. *)
Fixpoint split_from (sep : ascii) (cur : string) (s : string) : list string :=
  match s with
  | EmptyString => [String.rev cur]
  | String c s' =>
      if Ascii.eqb c sep
      then String.rev cur :: split_from sep "" s'
      else split_from sep (String c cur) s'
  end.

Definition Split_dash (s : string) : list string := split_from "-" "" s.

(** ** Package [regexp]: the fragment of the syntax the package uses *)

Inductive regex : Type :=
| Bol                          (* ^ *)
| Eol                          (* $ *)
| Eps                          (* the empty expression *)
| Chr (c : ascii)              (* a literal character *)
| Rng (lo hi : ascii)          (* a range lo-hi of a class *)
| Cat (r1 r2 : regex)          (* r1 r2 *)
| Alt (r1 r2 : regex).         (* r1 | r2, also the union inside a class *)

(** [r{0,n}] *)
Fixpoint upto (n : nat) (r : regex) : regex :=
  match n with
  | O => Eps
  | S n' => Alt (Cat r (upto n' r)) Eps
  end.

(** Does [r] match at the head of [s], the rest of the match being decided
    by [k]? [bol] tells whether the head of [s] is the beginning of the
    text. *)
Fixpoint match_here (r : regex) (bol : bool) (s : string)
    (k : bool -> string -> bool) : bool :=
  match r with
  | Bol => bol && k bol s
  | Eol => match s with EmptyString => k bol s | String _ _ => false end
  | Eps => k bol s
  | Chr c =>
      match s with
      | String a s' => Ascii.eqb a c && k false s'
      | EmptyString => false
      end
  | Rng lo hi =>
      match s with
      | String a s' =>
          (byte_of lo <=? byte_of a)%Z && (byte_of a <=? byte_of hi)%Z
          && k false s'
      | EmptyString => false
      end
  | Cat r1 r2 => match_here r1 bol s (fun b' s' => match_here r2 b' s' k)
  | Alt r1 r2 => match_here r1 bol s k || match_here r2 bol s k
  end.

(** A match may start at any position of the text. *)
Fixpoint match_from (r : regex) (bol : bool) (s : string) : bool :=
  match_here r bol s (fun _ _ => true)
  || match s with
     | EmptyString => false
     | String _ s' => match_from r false s'
     end.

(** [re.MatchString(s)]: does [s] contain a match of [re]? *)
Definition MatchString (re : regex) (s : string) : bool :=
  match_from re true s.

(** Writing the expressions of the source. *)
Fixpoint lit (s : string) : regex :=
  match s with
  | EmptyString => Eps
  | String c EmptyString => Chr c
  | String c s' => Cat (Chr c) (lit s')
  end.

(** ** info_func.go: the issuer classifier *)

(** ["^4"] *)
Definition reVISA : regex := Cat Bol (Chr "4").

(** ["^(5[1-5]|222[1-9]|22[3-9][0-9]|27[01][0-9]|2720)"] *)
Definition reMaster : regex :=
  Cat Bol
    (Alt (Cat (Chr "5") (Rng "1" "5"))
    (Alt (Cat (lit "222") (Rng "1" "9"))
    (Alt (Cat (lit "22") (Cat (Rng "3" "9") (Rng "0" "9")))
    (Alt (Cat (lit "27") (Cat (Alt (Chr "0") (Chr "1")) (Rng "0" "9")))
         (lit "2720"))))).

(** ["^3[47]"] *)
Definition reAmericanExpress : regex :=
  Cat Bol (Cat (Chr "3") (Alt (Chr "4") (Chr "7"))).

(** ["^35(2[89]|[3-8][0-9])"] *)
Definition reJCB : regex :=
  Cat Bol
    (Cat (lit "35")
         (Alt (Cat (Chr "2") (Alt (Chr "8") (Chr "9")))
              (Cat (Rng "3" "8") (Rng "0" "9")))).

(** ["^(62|81)"] *)
Definition reUnionPay : regex := Cat Bol (Alt (lit "62") (lit "81")).

Definition cardType (pan : array4) : CardType :=
  if MatchString reVISA (at0 pan) then VISACard
  else if MatchString reMaster (at0 pan) then MasterCard
  else if MatchString reAmericanExpress (at0 pan) then AmericanExpress
  else if MatchString reJCB (at0 pan) then JCBCard
  else if MatchString reUnionPay (at0 pan) then UnionPay
  else UnknownCardType.

(** ** info_func.go: the constructors *)

(** ["^[0-9*]{0,4}$"] *)
Definition reSlicedPAN : regex :=
  Cat Bol (Cat (upto 4 (Alt (Rng "0" "9") (Chr "*"))) Eol).

(** [for l < 4 { arr = append(arr, ""); l = len(arr) }] *)
Equations fill (arr : list string) : list string by wf (4 - length arr) lt :=
  fill arr with lt_dec (length arr) 4 := {
    | left _ => fill (arr ++ [""])
    | right _ => arr
  }.
Next Obligation. rewrite length_app. simpl. lia. Qed.

(** The body of [for idx, v := range arr], for the [n] positions from
    [idx] on; [arr[idx]] is read from, and written to, the slice as the
    earlier iterations left it. *)
Fixpoint range_from (n idx : nat) (arr : list string) : result (list string) :=
  match n with
  | O => Ok arr
  | S n' =>
      v ← or_panic (arr !! idx);
      if negb (MatchString reSlicedPAN v) then Err ErrSection
      else
        let l := len v in
        let arr :=
          if l <? 4 then <[idx := v +:+ Repeat "*" (4 - l)]> arr else arr in
        range_from n' (S idx) arr
  end.

(** The same loop, followed for the slice itself: what [arr] holds when the
    loop is left, at its end or at the [return] of a fragment that does not
    match. *)
Fixpoint range_writes (n idx : nat) (arr : list string) : list string :=
  match n with
  | O => arr
  | S n' =>
      match arr !! idx with
      | None => arr
      | Some v =>
          if negb (MatchString reSlicedPAN v) then arr
          else
            let l := len v in
            let arr :=
              if l <? 4 then <[idx := v +:+ Repeat "*" (4 - l)]> arr else arr in
            range_writes n' (S idx) arr
      end
  end.

Definition FromSlice (arr : list string) : result info :=
  let l := length arr in
  if 4 <? l then Err ErrSection
  else
    let arr := fill arr in
    arr ← range_from (length arr) 0 arr;
    e0 ← or_panic (arr !! 0);
    e1 ← or_panic (arr !! 1);
    e2 ← or_panic (arr !! 2);
    e3 ← or_panic (arr !! 3);
    let pan := Array4 e0 e1 e2 e3 in
    let typ := cardType pan in
    Ok (mkInfo pan typ).

Definition FromDashed (str : string) : result info :=
  let arr := Split_dash str in
  FromSlice arr.

Definition FromPart (parts : list string) : result info :=
  FromSlice parts.

Definition FromRaw (str : string) : result info :=
  if negb (len str =? 16) then Err ErrRaw
  else
    p0 ← slice_to str 4;
    p1 ← slice str 4 8;
    p2 ← slice str 8 12;
    p3 ← slice_from str 12;
    FromPart [p0; p1; p2; p3].

Definition FromMasked (first6 last4 : string) : result info :=
  if negb (len first6 =? 6) || negb (len last4 =? 4) then Err ErrMasked
  else
    p0 ← slice_to first6 4;
    p1 ← slice_from first6 4;
    FromPart [p0; p1 +:+ "**"; "****"; last4].

(** ** info_func.go: the methods of [*info] *)

Module Info.

Definition CardType (i : info) : CardType := typ i.

Definition Checksum (i : info) : result string :=
  slice_from (at3 (pan i)) 3.

Definition Last4 (i : info) : string := at3 (pan i).

Definition First6 (i : info) : result string :=
  h ← slice_to (at1 (pan i)) 2;
  Ok (at0 (pan i) +:+ h).

Definition FullLast4 (i : info) : string :=
  "****-****-****-" +:+ at3 (pan i).

Definition FullFirst6 (i : info) : result string :=
  h ← slice_to (at1 (pan i)) 2;
  Ok (at0 (pan i) +:+ "-" +:+ h +:+ "**-****-****").

Definition RawMasked (i : info) : result string :=
  f ← First6 i;
  Ok (f +:+ "******" +:+ Last4 i).

Definition Masked (i : info) : result string :=
  h ← slice_to (at1 (pan i)) 2;
  Ok (at0 (pan i) +:+ "-" +:+ h +:+ "**-****-" +:+ at3 (pan i)).

Definition RawPAN (i : info) : string := Join (to_slice (pan i)) "".

Definition PAN (i : info) : string := Join (to_slice (pan i)) "-".

(** The loop of [Validate] over the bytes that remain, [idx] being the
    position of the first of them and [sum] the byte summed so far. *)
Fixpoint luhn_loop (idx : nat) (bs : list Z) (sum : Z) : Z :=
  match bs with
  | [] => sum
  | c :: rest =>
      let x := if idx mod 2 =? 0 then 1%Z else 2%Z in
      let c := wrap8 (c - 48) in
      let c := wrap8 (c * x) in
      let c := if (9 <? c)%Z then wrap8 (c - 9) else c in
      luhn_loop (S idx) rest (wrap8 (sum + c))
  end.

(** [l - 1] is computed on [nat]: for [l = 0] it is 0 where Go has -1, and
    the access panics in both. *)
Definition Validate (i : info) : result unit :=
  let pan := RawPAN i in
  if negb (Index pan "*" =? -1)%Z then Err ErrValidateMasked
  else
    let l := len pan in
    last ← byte_at pan (l - 1);
    let checksum := wrap8 (last - 48) in
    body ← slice_to pan (l - 1);
    let sum := luhn_loop 0 (bytes body) 0 in
    let m := (wrap8 (checksum + sum) mod 10)%Z in
    if negb (m =? 0)%Z then Err ErrValidate
    else Ok tt.

End Info.

(** * Definitions used to state the properties *)

(** The alphabet of a section: a decimal digit or the mask character. *)
Definition is_digit (c : ascii) : bool :=
  (48 <=? byte_of c)%Z && (byte_of c <=? 57)%Z.

Definition is_mask (c : ascii) : bool := Ascii.eqb c "*".

Definition is_pan_char (c : ascii) : bool := is_digit c || is_mask c.

(** Every character of the string passes the test. *)
Fixpoint every (f : ascii -> bool) (s : string) : bool :=
  match s with
  | EmptyString => true
  | String c s' => f c && every f s'
  end.

(** Some character of the string passes the test. *)
Fixpoint some (f : ascii -> bool) (s : string) : bool :=
  match s with
  | EmptyString => false
  | String c s' => f c || some f s'
  end.

(** The fragments [reSlicedPAN] accepts. *)
Definition valid_fragment (v : string) : bool :=
  (len v <=? 4) && every is_pan_char v.

(** A fragment padded with mask characters, as the loop of [FromSlice]
    leaves it. *)
Definition pad4 (v : string) : string :=
  if len v <? 4 then v +:+ Repeat "*" (4 - len v) else v.

(** The array made of the first four entries of a slice. *)
Definition array_of (l : list string) : array4 :=
  Array4 (default "" (l !! 0)) (default "" (l !! 1))
         (default "" (l !! 2)) (default "" (l !! 3)).

(** The value [FromSlice] builds from four sections. *)
Definition build (l : list string) : info :=
  mkInfo (array_of l) (cardType (array_of l)).

(** The fragments of a call, completed to four. *)
Definition four (arr : list string) : list string :=
  arr ++ replicate (4 - length arr) "".

(** A section: exactly four characters, each a digit or the mask. *)
Definition wf_section (s : string) : bool :=
  (len s =? 4) && every is_pan_char s.

Definition wf (p : info) : bool := forallb wf_section (to_slice (pan p)).

(** The values the exported constructors return without error. *)
Inductive Constructed (p : info) : Prop :=
| by_FromSlice (arr : list string) : FromSlice arr = Ok p -> Constructed p
| by_FromPart (parts : list string) : FromPart parts = Ok p -> Constructed p
| by_FromDashed (str : string) : FromDashed str = Ok p -> Constructed p
| by_FromRaw (str : string) : FromRaw str = Ok p -> Constructed p
| by_FromMasked (first6 last4 : string) :
    FromMasked first6 last4 = Ok p -> Constructed p.

(** The check of [Validate] as the specification words it, to be compared
    with the code. The digits are the values of the characters; a digit at
    an even index counts once, a digit at an odd index is doubled, and 9 is
    taken off a doubled digit above 9. *)
Definition digit_value (b : Z) : Z := (b - 48)%Z.

Definition luhn_term (idx : nat) (d : Z) : Z :=
  if Nat.even idx then d
  else if (9 <? 2 * d)%Z then (2 * d - 9)%Z else (2 * d)%Z.

Fixpoint luhn_sum (idx : nat) (ds : list Z) : Z :=
  match ds with
  | [] => 0%Z
  | d :: rest => (luhn_term idx d + luhn_sum (S idx) rest)%Z
  end.

(** The last character is the check digit; the digits before it are summed,
    and the PAN is valid when the sum and the check digit add up to a
    multiple of 10. A PAN with a mask character is not checked. *)
Definition Validate_spec (raw : string) : result unit :=
  if some is_mask raw then Err ErrValidateMasked
  else
    let digits := digit_value <$> bytes raw in
    let check := default 0%Z (last digits) in
    let sum := luhn_sum 0 (take (length digits - 1) digits) in
    if ((sum + check) mod 10 =? 0)%Z then Ok tt else Err ErrValidate.

(** The bytes of the decimal digits. *)
Definition is_digit_byte (b : Z) : Prop := (48 <= b <= 57)%Z.

(** The separator of [FromDashed]. *)
Definition is_dash (c : ascii) : bool := Ascii.eqb c "-".

(** The section written with the four decimal digits of [n]. *)
Definition digit_char (d : Z) : ascii := ascii_of_N (Z.to_N (48 + d mod 10)).

Definition decimal4 (n : Z) : string :=
  String (digit_char (n / 1000)) (String (digit_char (n / 100))
    (String (digit_char (n / 10)) (String (digit_char n) ""))).

(** The numbers [reMaster] accepts: 2221-2299, 2700-2720 and 5100-5599. *)
Definition master_numbers (n : Z) : bool :=
  ((2221 <=? n) && (n <=? 2299) || (2700 <=? n) && (n <=? 2720)
   || (5100 <=? n) && (n <=? 5599))%Z.

(** The eleven methods of the interface. *)
Inductive method : Type :=
| mCardType | mChecksum | mLast4 | mFirst6 | mFullLast4 | mFullFirst6
| mRawMasked | mMasked | mRawPAN | mPAN | mValidate.

(** What a call hands back to its caller. *)
Inductive answer : Type :=
| AType (t : CardType)
| AString (s : result string)
| AError (e : result unit).

(** A call of a method on the receiver [i]: the answer, and the receiver
    after the call. The receiver is a pointer, so a method could write to
    it; none of the eleven has an assignment to [i.pan] or to [i.typ], and
    the receiver after the call is the one before it. *)
Definition call (m : method) (i : info) : answer * info :=
  match m with
  | mCardType => (AType (Info.CardType i), i)
  | mChecksum => (AString (Info.Checksum i), i)
  | mLast4 => (AString (Ok (Info.Last4 i)), i)
  | mFirst6 => (AString (Info.First6 i), i)
  | mFullLast4 => (AString (Ok (Info.FullLast4 i)), i)
  | mFullFirst6 => (AString (Info.FullFirst6 i), i)
  | mRawMasked => (AString (Info.RawMasked i), i)
  | mMasked => (AString (Info.Masked i), i)
  | mRawPAN => (AString (Ok (Info.RawPAN i)), i)
  | mPAN => (AString (Ok (Info.PAN i)), i)
  | mValidate => (AError (Info.Validate i), i)
  end.

(** The call ended in a run-time panic. *)
Definition panicked (a : answer) : bool :=
  match a with
  | AString Panic | AError Panic => true
  | _ => false
  end.

(** The number of characters of the string that pass the test. *)
Fixpoint count (f : ascii -> bool) (s : string) : nat :=
  match s with
  | EmptyString => 0
  | String c s' => (if f c then 1 else 0) + count f s'
  end.

(** The string with its character at position [i] replaced by [c]. *)
Fixpoint set_char (i : nat) (c : ascii) (s : string) : string :=
  match s, i with
  | EmptyString, _ => EmptyString
  | String _ s', O => String c s'
  | String a s', S i' => String a (set_char i' c s')
  end.

(** The issuer of a first section of four digits, by the number they
    write, as the five expressions of the classifier give it. *)
Definition between (lo hi n : Z) : bool := ((lo <=? n) && (n <=? hi))%Z.

Definition issuer_of_number (n : Z) : CardType :=
  if between 4000 4999 n then VISACard
  else if between 2221 2299 n || between 2700 2720 n || between 5100 5599 n
  then MasterCard
  else if between 3400 3499 n || between 3700 3799 n then AmericanExpress
  else if between 3528 3589 n then JCBCard
  else if between 6200 6299 n || between 8100 8199 n then UnionPay
  else UnknownCardType.

(** The fragments at the head of a slice that [reSlicedPAN] accepts, up to
    the first one it does not. *)
Fixpoint valid_prefix (arr : list string) : nat :=
  match arr with
  | [] => 0
  | v :: rest => if valid_fragment v then S (valid_prefix rest) else 0
  end.

(** The expressions of the classifier, in the order of its switch. *)
Definition rules : list regex :=
  [reVISA; reMaster; reAmericanExpress; reJCB; reUnionPay].

(** The number [Validate_spec] tests: the sum over the digits before the
    last one, and the last one. *)
Definition luhn_total (ds : list Z) : Z :=
  (luhn_sum 0 (take (length ds - 1) ds) + default 0 (last ds))%Z.

(** * Properties *)

Example cardType_visa : cardType (Array4 "4000" "0000" "0000" "0000") = VISACard.
Proof. reflexivity. Qed.

Example cardType_jcb : cardType (Array4 "3528" "0000" "0000" "0000") = JCBCard.
Proof. reflexivity. Qed.

Example cardType_2300 : cardType (Array4 "2300" "0000" "0000" "0000") = UnknownCardType.
Proof. reflexivity. Qed.

(** ** Characters and strings *)

Lemma app_cons (c : ascii) (s t : string) :
  String c s +:+ t = String c (s +:+ t).
Proof. reflexivity. Qed.

Lemma app_empty_l (t : string) : "" +:+ t = t.
Proof. reflexivity. Qed.

Lemma app_empty_r (s : string) : s +:+ "" = s.
Proof. induction s as [|c s IH]; [done|]. by rewrite app_cons, IH. Qed.

Lemma len_app (s t : string) : len (s +:+ t) = len s + len t.
Proof.
  induction s as [|c s IH]; [done|].
  rewrite app_cons. simpl. by rewrite IH.
Qed.

Lemma every_app (f : ascii -> bool) (s t : string) :
  every f (s +:+ t) = every f s && every f t.
Proof.
  induction s as [|c s IH]; [done|].
  rewrite app_cons. simpl. rewrite IH. by destruct (f c).
Qed.

Lemma len_Repeat_mask (n : nat) : len (Repeat "*" n) = n.
Proof. induction n as [|n IH]; simpl; [done|]. by f_equal. Qed.

Lemma every_Repeat_mask (n : nat) : every is_pan_char (Repeat "*" n) = true.
Proof. induction n as [|n IH]; simpl; [done|]. exact IH. Qed.

(** A string of a known length is that many characters. *)
Lemma len_0_inv (s : string) : len s = 0 -> s = "".
Proof. by destruct s. Qed.

Lemma len_S_inv (s : string) (n : nat) :
  len s = S n -> exists c s', s = String c s' /\ len s' = n.
Proof. destruct s as [|c s']; [done|]. intros [= H]. eauto. Qed.

Ltac explode_string H :=
  repeat match type of H with
  | len ?s = S _ =>
      let c := fresh "c" in
      let s' := fresh "s" in
      let H' := fresh "Hlen" in
      destruct (len_S_inv _ _ H) as (c & s' & -> & H'); clear H; rename H' into H
  end;
  match type of H with
  | len ?s = 0 => apply len_0_inv in H; subst s
  end.

(** ** The regular expressions *)

(** An expression anchored at the beginning of the text matches nowhere
    else. *)
Lemma match_from_anchored (r : regex) (s : string) :
  match_from (Cat Bol r) false s = false.
Proof. induction s as [|c s IH]; simpl; [done|]. exact IH. Qed.

Lemma MatchString_anchored (r : regex) (s : string) :
  MatchString (Cat Bol r) s = match_here r true s (fun _ _ => true).
Proof.
  unfold MatchString. destruct s as [|c s]; simpl.
  - by rewrite orb_false_r.
  - by rewrite match_from_anchored, orb_false_r.
Qed.

Lemma class_pan_char (c : ascii) (s : string) (bol : bool)
    (k : bool -> string -> bool) :
  match_here (Alt (Rng "0" "9") (Chr "*")) bol (String c s) k
  = is_pan_char c && k false s.
Proof.
  simpl. unfold is_pan_char, is_digit, is_mask.
  change (byte_of "0") with 48%Z. change (byte_of "9") with 57%Z.
  destruct (48 <=? byte_of c)%Z, (byte_of c <=? 57)%Z, (Ascii.eqb c "*"),
    (k false s); reflexivity.
Qed.

(** At most [n] characters of the alphabet, up to the end of the text. *)
Lemma match_upto_pan_chars (n : nat) (bol : bool) (s : string) :
  match_here (upto n (Alt (Rng "0" "9") (Chr "*"))) bol s
    (fun b' s' => match_here Eol b' s' (fun _ _ => true))
  = (len s <=? n) && every is_pan_char s.
Proof.
  revert bol s. induction n as [|n IH]; intros bol s.
  - by destruct s.
  - cbn [upto]. destruct s as [|c s].
    + reflexivity.
    + change (match_here (Alt ?r1 ?r2) bol ?t ?k)
        with (match_here r1 bol t k || match_here r2 bol t k).
      change (match_here (Cat ?r1 ?r2) bol ?t ?k)
        with (match_here r1 bol t (fun b' s' => match_here r2 b' s' k)).
      rewrite class_pan_char, IH. cbn.
      rewrite orb_false_r. by destruct (is_pan_char c), (len s <=? n).
Qed.

Lemma reSlicedPAN_spec (v : string) :
  MatchString reSlicedPAN v = valid_fragment v.
Proof.
  unfold reSlicedPAN. rewrite MatchString_anchored.
  apply (match_upto_pan_chars 4).
Qed.

(** ** The common constructor *)

Lemma fill_spec (arr : list string) :
  length arr <= 4 -> fill arr = four arr.
Proof.
  unfold four. funelim (fill arr); intros Hle.
  - rewrite H by (rewrite length_app; simpl; lia).
    rewrite length_app. simpl length.
    replace (4 - length arr) with (S (4 - (length arr + 1))) by lia.
    simpl. by rewrite <- app_assoc.
  - replace (4 - length arr) with 0 by lia. simpl. by rewrite app_nil_r.
Qed.

Lemma length_four (arr : list string) : length arr <= 4 -> length (four arr) = 4.
Proof. intros H. unfold four. rewrite length_app, length_replicate. lia. Qed.

Lemma forallb_four (arr : list string) :
  forallb valid_fragment (four arr) = forallb valid_fragment arr.
Proof.
  unfold four. rewrite forallb_app.
  assert (forallb valid_fragment (replicate (4 - length arr) "") = true) as ->.
  { induction (4 - length arr) as [|n IH]; simpl; [done|]. exact IH. }
  apply andb_true_r.
Qed.

(** The loop over the fragments: [done] is the part of the slice already
    visited. *)
Lemma range_from_spec (todo done : list string) :
  range_from (length todo) (length done) (done ++ todo)
  = if forallb valid_fragment todo
    then Ok (done ++ (pad4 <$> todo))
    else Err ErrSection.
Proof.
  revert done. induction todo as [|v todo IH]; intros done.
  - done.
  - cbn [length range_from forallb fmap list_fmap].
    rewrite list_lookup_middle by done.
    cbn [or_panic mbind result_bind]. rewrite reSlicedPAN_spec.
    destruct (valid_fragment v) eqn:Hv; cbn [negb andb]; [|done].
    assert ((if len v <? 4
             then <[length done := v +:+ Repeat "*" (4 - len v)]> (done ++ v :: todo)
             else done ++ v :: todo) = (done ++ [pad4 v]) ++ todo) as ->.
    { unfold pad4. rewrite <- app_assoc. simpl.
      destruct (len v <? 4); [|done].
      rewrite <- (Nat.add_0_r (length done)) at 1.
      by rewrite insert_app_r. }
    replace (S (length done)) with (length (done ++ [pad4 v]))
      by (rewrite length_app; simpl; lia).
    rewrite IH. by rewrite <- app_assoc.
Qed.

(** What [FromSlice] returns, for every slice. *)
Lemma FromSlice_spec (arr : list string) :
  FromSlice arr
  = if (length arr <=? 4) && forallb valid_fragment arr
    then Ok (build (pad4 <$> four arr))
    else Err ErrSection.
Proof.
  unfold FromSlice.
  destruct (Nat.ltb_spec 4 (length arr)) as [Hgt|Hle].
  - by rewrite (proj2 (Nat.leb_gt _ _) Hgt).
  - rewrite (proj2 (Nat.leb_le _ _) Hle). cbn [andb].
    rewrite fill_spec by done.
    pose proof (range_from_spec (four arr) []) as Hloop. cbn [app length] in Hloop.
    rewrite Hloop, forallb_four. clear Hloop.
    destruct (forallb valid_fragment arr); [|done].
    pose proof (length_four arr Hle) as Hlen.
    destruct (four arr) as [|e0 [|e1 [|e2 [|e3 [|e4 rest]]]]]; try done.
Qed.

Lemma to_slice_array_of (l : list string) :
  length l = 4 -> to_slice (array_of l) = l.
Proof. destruct l as [|e0 [|e1 [|e2 [|e3 [|e4 rest]]]]]; by intros [=]. Qed.

Lemma len_pad4 (v : string) : len v <= 4 -> len (pad4 v) = 4.
Proof.
  intros H. unfold pad4. destruct (Nat.ltb_spec (len v) 4) as [Hlt|Hge].
  - rewrite len_app, len_Repeat_mask. lia.
  - lia.
Qed.

Lemma every_pad4 (v : string) :
  every is_pan_char (pad4 v) = every is_pan_char v.
Proof.
  unfold pad4. destruct (len v <? 4); [|done].
  rewrite every_app, every_Repeat_mask. apply andb_true_r.
Qed.

(** ** The invariant of a PAN *)

Lemma wf_section_pad4 (v : string) :
  valid_fragment v = true -> wf_section (pad4 v) = true.
Proof.
  unfold valid_fragment, wf_section.
  intros [Hlen Hch]%andb_true_iff. apply Nat.leb_le in Hlen.
  by rewrite len_pad4, every_pad4.
Qed.

Lemma FromSlice_Ok_inv (arr : list string) (p : info) :
  FromSlice arr = Ok p ->
  length arr <= 4 /\ forallb valid_fragment arr = true
  /\ p = build (pad4 <$> four arr).
Proof.
  rewrite FromSlice_spec.
  destruct (Nat.leb_spec (length arr) 4) as [Hle|Hgt]; [|done].
  destruct (forallb valid_fragment arr) eqn:Hall; [|done].
  by intros [= <-].
Qed.

Lemma wf_build (arr : list string) :
  length arr <= 4 -> forallb valid_fragment arr = true ->
  wf (build (pad4 <$> four arr)) = true.
Proof.
  intros Hle Hall. unfold wf, build. cbn [pan].
  rewrite to_slice_array_of by (rewrite length_fmap; by apply length_four).
  rewrite <- forallb_four in Hall.
  induction (four arr) as [|v l IH]; [done|].
  cbn in Hall |- *. apply andb_true_iff in Hall as [Hv Hl].
  by rewrite wf_section_pad4, IH.
Qed.

(** Every constructor ends in [FromSlice]. *)
Lemma Constructed_FromSlice (p : info) :
  Constructed p -> exists arr, FromSlice arr = Ok p.
Proof.
  intros [arr H|parts H|str H|str H|first6 last4 H].
  - eauto.
  - eauto.
  - eauto.
  - unfold FromRaw in H. destruct (negb _); [done|].
    destruct (slice_to str 4) as [p0| |]; try done.
    destruct (slice str 4 8) as [p1| |]; try done.
    destruct (slice str 8 12) as [p2| |]; try done.
    destruct (slice_from str 12) as [p3| |]; try done.
    eauto.
  - unfold FromMasked in H. destruct (_ || _); [done|].
    destruct (slice_to first6 4) as [p0| |]; try done.
    destruct (slice_from first6 4) as [p1| |]; try done.
    eauto.
Qed.

Lemma Constructed_wf (p : info) : Constructed p -> wf p = true.
Proof.
  intros [arr H]%Constructed_FromSlice.
  apply FromSlice_Ok_inv in H as (Hle & Hall & ->).
  by apply wf_build.
Qed.

(** The issuer is the one the classifier gives for the sections. *)
Lemma Constructed_typ (p : info) : Constructed p -> typ p = cardType (pan p).
Proof.
  intros [arr H]%Constructed_FromSlice.
  by apply FromSlice_Ok_inv in H as (_ & _ & ->).
Qed.

(** The four sections of a well-formed PAN, character by character. *)
Lemma wf_inv (p : info) :
  wf p = true ->
  exists a0 a1 a2 a3 b0 b1 b2 b3 c0 c1 c2 c3 d0 d1 d2 d3,
    pan p = Array4 (String a0 (String a1 (String a2 (String a3 ""))))
                   (String b0 (String b1 (String b2 (String b3 ""))))
                   (String c0 (String c1 (String c2 (String c3 ""))))
                   (String d0 (String d1 (String d2 (String d3 ""))))
    /\ forallb is_pan_char
         [a0; a1; a2; a3; b0; b1; b2; b3; c0; c1; c2; c3; d0; d1; d2; d3]
       = true.
Proof.
  destruct p as [[s0 s1 s2 s3] t]. unfold wf, wf_section.
  cbn [pan to_slice forallb at0 at1 at2 at3].
  rewrite !andb_true_iff, !Nat.eqb_eq.
  intros ((H0 & E0) & (H1 & E1) & (H2 & E2) & (H3 & E3) & _).
  explode_string H0. explode_string H1. explode_string H2. explode_string H3.
  do 16 eexists. split; [reflexivity|].
  cbn [every] in E0, E1, E2, E3. cbn [forallb].
  rewrite !andb_true_iff in *. tauto.
Qed.

(** ** Validation *)

Lemma even_mod2 (n : nat) : (n mod 2 =? 0) = Nat.even n.
Proof.
  apply eq_true_iff_eq.
  rewrite Nat.eqb_eq, Nat.even_spec, Nat.Div0.mod_divides. reflexivity.
Qed.

Lemma wrap8_small (z : Z) : (0 <= z < 256)%Z -> wrap8 z = z.
Proof. apply Z.mod_small. Qed.

Lemma prefix_mask (c : ascii) (s : string) :
  String.prefix "*" (String c s) = is_mask c.
Proof.
  unfold is_mask. destruct (Ascii.eqb_spec c "*") as [->|Hne].
  - apply String.prefix_correct. simpl. by destruct s.
  - apply not_true_is_false. intros H%String.prefix_correct.
    simpl in H. congruence.
Qed.

(** [strings.Index(s, "*") == -1] says that no character is the mask. *)
Lemma Index_mask (s : string) :
  (Index s "*" =? -1)%Z = negb (some is_mask s).
Proof.
  unfold Index. induction s as [|c s IH].
  - reflexivity.
  - cbn [String.index some]. rewrite prefix_mask.
    destruct (is_mask c); [reflexivity|]. cbn [orb].
    destruct (String.index 0 "*" s) as [n|]; [|exact IH].
    rewrite <- IH.
    transitivity false; [|symmetry]; apply Z.eqb_neq; lia.
Qed.

Lemma is_digit_byte_of (c : ascii) :
  is_pan_char c = true -> is_mask c = false -> is_digit_byte (byte_of c).
Proof.
  unfold is_pan_char, is_digit, is_digit_byte. intros H Hm.
  rewrite Hm, orb_false_r in H. apply andb_true_iff in H as [H1 H2]. lia.
Qed.

(** On digits the byte arithmetic of the loop never wraps around, and the
    loop computes the sum of the specification. *)
Lemma luhn_loop_digits (bs : list Z) :
  Forall is_digit_byte bs ->
  forall (idx : nat) (sum : Z),
    (0 <= sum)%Z -> (sum + 9 * Z.of_nat (length bs) < 256)%Z ->
    Info.luhn_loop idx bs sum = (sum + luhn_sum idx (digit_value <$> bs))%Z
    /\ (0 <= luhn_sum idx (digit_value <$> bs) <= 9 * Z.of_nat (length bs))%Z.
Proof.
  induction 1 as [|b bs Hb Hbs IH]; intros idx sum Hsum Hbound.
  - cbn. lia.
  - cbn [Info.luhn_loop fmap list_fmap luhn_sum length] in *.
    unfold is_digit_byte in Hb.
    assert ((let c := wrap8 (wrap8 (b - 48) * (if idx mod 2 =? 0 then 1 else 2)) in
             if (9 <? c)%Z then wrap8 (c - 9) else c) = luhn_term idx (digit_value b)
            /\ (0 <= luhn_term idx (digit_value b) <= 9)%Z) as [Hterm Hrange].
    { unfold luhn_term, digit_value. rewrite even_mod2. cbv zeta.
      rewrite (wrap8_small (b - 48)) by lia.
      destruct (Nat.even idx).
      - rewrite wrap8_small by lia.
        destruct (Z.ltb_spec 9 ((b - 48) * 1)); [lia|]. lia.
      - rewrite wrap8_small by lia.
        replace ((b - 48) * 2)%Z with (2 * (b - 48))%Z by lia.
        destruct (Z.ltb_spec 9 (2 * (b - 48))).
        + rewrite wrap8_small by lia. lia.
        + lia. }
    cbv zeta in Hterm |- *. rewrite Hterm.
    rewrite wrap8_small by lia.
    destruct (IH (S idx) (sum + luhn_term idx (digit_value b))%Z) as [-> Hrest];
      lia.
Qed.

#[local] Arguments wrap8 : simpl never.
#[local] Arguments byte_of : simpl never.
#[local] Arguments is_mask : simpl never.
#[local] Arguments is_pan_char : simpl never.
#[local] Arguments Info.luhn_loop : simpl never.
#[local] Arguments luhn_sum : simpl never.

(** The sixteen characters of a well-formed PAN. *)
Lemma wf_RawPAN (p : info) :
  wf p = true ->
  exists cs : list ascii,
    length cs = 16
    /\ Info.RawPAN p = string_of_list_ascii cs
    /\ pan p = Array4 (string_of_list_ascii (take 4 cs))
                      (string_of_list_ascii (take 4 (drop 4 cs)))
                      (string_of_list_ascii (take 4 (drop 8 cs)))
                      (string_of_list_ascii (drop 12 cs))
    /\ forallb is_pan_char cs = true.
Proof.
  intros (a0 & a1 & a2 & a3 & b0 & b1 & b2 & b3 & c0 & c1 & c2 & c3
          & d0 & d1 & d2 & d3 & Hpan & Hall)%wf_inv.
  exists [a0; a1; a2; a3; b0; b1; b2; b3; c0; c1; c2; c3; d0; d1; d2; d3].
  unfold Info.RawPAN. rewrite Hpan. repeat split; done.
Qed.

Lemma some_mask_false (cs : list ascii) :
  some is_mask (string_of_list_ascii cs) = false ->
  forallb is_pan_char cs = true ->
  Forall is_digit_byte (byte_of <$> cs).
Proof.
  induction cs as [|c cs IH]; cbn [string_of_list_ascii some forallb].
  - constructor.
  - intros [Hc Hcs]%orb_false_iff [Pc Pcs]%andb_true_iff.
    constructor; [by apply is_digit_byte_of | by apply IH].
Qed.

Lemma bytes_of_list (cs : list ascii) :
  bytes (string_of_list_ascii cs) = byte_of <$> cs.
Proof. induction cs as [|c cs IH]; [done|]. cbn. by rewrite IH. Qed.

(** [Validate] on the raw string of a well-formed PAN. *)
Lemma Validate_wf (p : info) :
  wf p = true -> Info.Validate p = Validate_spec (Info.RawPAN p).
Proof.
  intros (cs & Hlen & Hraw & _ & Hall)%wf_RawPAN.
  unfold Info.Validate, Validate_spec. rewrite Hraw, Index_mask, negb_involutive.
  destruct (some is_mask (string_of_list_ascii cs)) eqn:Hmask; [done|].
  pose proof (some_mask_false cs Hmask Hall) as Hdigits.
  rewrite bytes_of_list. clear Hraw Hmask Hall p.
  do 17 (destruct cs as [|? cs]; try discriminate Hlen). clear Hlen.
  cbn [string_of_list_ascii String.length Nat.sub byte_at String.get fmap
       option_fmap option_map or_panic mbind result_bind].
  unfold slice_to, slice.
  cbn [string_of_list_ascii String.length Nat.leb andb Nat.sub String.substring
       mbind result_bind bytes fmap list_fmap length take last default].
  cbn [fmap list_fmap] in Hdigits.
  repeat match goal with
  | H : Forall _ (_ :: _) |- _ => apply Forall_cons in H as [? H]
  end.
  match goal with
  | |- context [Info.luhn_loop 0 ?bs 0] =>
      destruct (luhn_loop_digits bs) with (idx := 0) (sum := 0%Z)
        as [Hloop Hrange];
      [repeat (apply Forall_cons_2; [assumption|]); apply Forall_nil_2
      | lia | cbn; lia |]
  end.
  rewrite Hloop. cbn [fmap list_fmap length] in *.
  unfold is_digit_byte, digit_value in *.
  rewrite (wrap8_small (_ - 48)) by lia.
  rewrite wrap8_small by lia.
  rewrite Z.add_0_l, Z.add_comm.
  by destruct (_ mod 10 =? 0)%Z.
Qed.

(** ** The other constructors *)

#[local] Arguments pad4 : simpl never.
#[local] Arguments cardType : simpl never.

(** Case analysis on the alphabet tests of a goal, one character after the
    other, the goal being closed as soon as a test fails. *)
Ltac by_pan_chars :=
  change (is_pan_char "*") with true;
  repeat match goal with
  | |- context [is_pan_char ?c] =>
      destruct (is_pan_char c); cbn [andb]; try reflexivity
  end.

Lemma pad4_alt (v : string) :
  len v <= 4 -> pad4 v = v +:+ Repeat "*" (4 - len v).
Proof.
  intros H. unfold pad4. destruct (Nat.ltb_spec (len v) 4) as [Hlt|Hge]; [done|].
  replace (4 - len v) with 0 by lia. by rewrite app_empty_r.
Qed.

(** What [FromRaw] returns, for every string. *)
Lemma FromRaw_spec (str : string) :
  FromRaw str
  = if negb (len str =? 16) then Err ErrRaw
    else if every is_pan_char str
    then Ok (build [String.substring 0 4 str; String.substring 4 4 str;
                    String.substring 8 4 str; String.substring 12 4 str])
    else Err ErrSection.
Proof.
  unfold FromRaw. destruct (Nat.eqb_spec (len str) 16) as [Hlen|Hlen]; [|done].
  cbn [negb]. explode_string Hlen.
  unfold slice_to, slice_from, slice, FromPart.
  cbn [String.length Nat.leb andb Nat.sub String.substring mbind result_bind].
  rewrite FromSlice_spec. unfold valid_fragment.
  cbn [length forallb String.length Nat.leb andb every].
  by_pan_chars.
Qed.

(** What [FromMasked] returns, for every pair of strings. *)
Lemma FromMasked_spec (first6 last4 : string) :
  FromMasked first6 last4
  = if negb (len first6 =? 6) || negb (len last4 =? 4) then Err ErrMasked
    else if every is_pan_char first6 && every is_pan_char last4
    then Ok (build [String.substring 0 4 first6;
                    String.substring 4 2 first6 +:+ "**"; "****"; last4])
    else Err ErrSection.
Proof.
  unfold FromMasked.
  destruct (Nat.eqb_spec (len first6) 6) as [H6|H6]; [|done].
  destruct (Nat.eqb_spec (len last4) 4) as [H4|H4]; [|done].
  cbn [negb orb]. explode_string H6. explode_string H4.
  unfold slice_to, slice_from, slice, FromPart.
  cbn [String.length Nat.leb andb Nat.sub String.substring mbind result_bind].
  rewrite FromSlice_spec. unfold valid_fragment.
  rewrite !app_cons, app_empty_l.
  cbn [length forallb String.length Nat.leb andb every].
  by_pan_chars.
Qed.

Lemma rev_app_app (s t u : string) :
  String.rev_app s t +:+ u = String.rev_app s (t +:+ u).
Proof.
  revert t. induction s as [|c s IH]; intros t; [done|].
  cbn [String.rev_app]. by rewrite IH, app_cons.
Qed.

Lemma split_from_no_dash (s cur : string) :
  some is_dash s = false ->
  split_from "-" cur s = [String.rev cur +:+ s].
Proof.
  revert cur. induction s as [|c s IH]; intros cur; cbn [some split_from].
  - by rewrite app_empty_r.
  - intros [Hc Hs]%orb_false_iff. unfold is_dash in Hc. rewrite Hc.
    rewrite IH by done. unfold String.rev. cbn [String.rev_app].
    by rewrite !rev_app_app.
Qed.

Lemma pan_char_not_dash (c : ascii) : is_pan_char c = true -> is_dash c = false.
Proof.
  unfold is_dash. intros H. destruct (Ascii.eqb_spec c "-") as [->|]; [|done].
  discriminate H.
Qed.

Lemma pan_chars_no_dash (s : string) :
  every is_pan_char s = true -> some is_dash s = false.
Proof.
  induction s as [|c s IH]; cbn [every some]; [done|].
  intros [Hc Hs]%andb_true_iff. by rewrite pan_char_not_dash, IH.
Qed.

(** * The claims *)

(** C1. For every PAN [p] (an [info] whose four sections have four
    characters of the alphabet each), the string [Validate] works on,
    [RawPAN()], is the concatenation of the four sections of [p], and it
    has sixteen characters. [Validate] returns [ErrValidateMasked] if and
    only if this concatenation contains a mask character. Otherwise it
    returns what the check of the specification gives on it
    ([Validate_spec]): the last character is the check digit, the fifteen
    digits before it are summed with multiplier 1 at even index and 2 at
    odd index, 9 being taken off a doubled digit above 9, and the result is
    nil when the sum plus the check digit is a multiple of 10 and
    [ErrValidate] when it is not. The call never panics: its outcome is one
    of these three values. *)
Theorem Validate_outcomes (p : info) :
  wf p = true ->
  Info.RawPAN p
  = at0 (pan p) +:+ at1 (pan p) +:+ at2 (pan p) +:+ at3 (pan p)
  /\ len (at0 (pan p) +:+ at1 (pan p) +:+ at2 (pan p) +:+ at3 (pan p)) = 16
  /\ (Info.Validate p = Err ErrValidateMasked
      <-> some is_mask
            (at0 (pan p) +:+ at1 (pan p) +:+ at2 (pan p) +:+ at3 (pan p))
          = true)
  /\ Info.Validate p
     = Validate_spec
         (at0 (pan p) +:+ at1 (pan p) +:+ at2 (pan p) +:+ at3 (pan p))
  /\ (Info.Validate p = Ok tt
      \/ Info.Validate p = Err ErrValidate
      \/ Info.Validate p = Err ErrValidateMasked).
Proof.
  intros Hwf. pose proof (Validate_wf p Hwf) as Hspec.
  destruct (wf_RawPAN p Hwf) as (cs & Hlen & Hraw & _ & _).
  assert (Info.RawPAN p
          = at0 (pan p) +:+ at1 (pan p) +:+ at2 (pan p) +:+ at3 (pan p))
    as Hcat by (by destruct p as [[s0 s1 s2 s3] t]).
  split; [exact Hcat|]. rewrite <- Hcat. split.
  { rewrite Hraw. clear -Hlen.
    do 17 (destruct cs as [|? cs]; try discriminate Hlen). reflexivity. }
  rewrite Hspec. unfold Validate_spec.
  destruct (some is_mask (Info.RawPAN p)).
  - repeat split; auto.
  - destruct (_ =? 0)%Z; (split; [split; discriminate|]); auto.
Qed.

Lemma Validate_outcomes_witness :
  wf (build ["0000"; "0000"; "0000"; "0019"]) = true
  /\ Info.RawPAN (build ["0000"; "0000"; "0000"; "0019"]) = "0000000000000019"
  /\ Info.Validate (build ["0000"; "0000"; "0000"; "0019"]) = Ok tt.
Proof.
  split; [reflexivity|].
  destruct (Validate_outcomes (build ["0000"; "0000"; "0000"; "0019"]) eq_refl)
    as (-> & _ & _ & -> & _).
  split; reflexivity.
Defined.

(** C3. [FromPart] is [FromSlice]. [FromSlice] succeeds exactly when the
    slice has at most 4 entries and every entry has at most 4 characters,
    all of them digits or masks; any other slice gives [ErrSection]. On
    success the slice is completed to 4 entries with empty strings and every
    entry is completed on the right with mask characters, so that each
    section has exactly 4 characters. The empty slice gives the PAN that
    prints as ["****-****-****-****"]. *)
Theorem FromSlice_contract (arr : list string) :
  FromPart arr = FromSlice arr
  /\ FromSlice arr
     = (if (length arr <=? 4)
           && forallb (fun v => (len v <=? 4) && every is_pan_char v) arr
        then
          let pan :=
            array_of ((fun v => v +:+ Repeat "*" (4 - len v))
                        <$> (arr ++ replicate (4 - length arr) "")) in
          Ok (mkInfo pan (cardType pan))
        else Err ErrSection)
  /\ (forall p, FromSlice arr = Ok p ->
        to_slice (pan p)
        = (fun v => v +:+ Repeat "*" (4 - len v))
            <$> (arr ++ replicate (4 - length arr) "")
        /\ Forall (fun s => len s = 4) (to_slice (pan p)))
  /\ (exists p, FromSlice [] = Ok p /\ Info.PAN p = "****-****-****-****").
Proof.
  assert (forall l, forallb valid_fragment l = true ->
            pad4 <$> l = (fun v => v +:+ Repeat "*" (4 - len v)) <$> l) as Hpad.
  { induction l as [|v l IH]; [done|]. cbn [forallb fmap list_fmap].
    intros [Hv Hl]%andb_true_iff. f_equal; [|by apply IH].
    apply pad4_alt. apply andb_true_iff in Hv as [Hv _]. by apply Nat.leb_le. }
  split; [reflexivity|]. split; [|split].
  - rewrite FromSlice_spec. fold valid_fragment.
    destruct (length arr <=? 4); [|done].
    destruct (forallb valid_fragment arr) eqn:Hall; [|done].
    cbn [andb]. unfold build. fold (four arr).
    by rewrite <- Hpad by (by rewrite forallb_four).
  - intros p (Hle & Hall & ->)%FromSlice_Ok_inv. fold (four arr).
    rewrite <- Hpad by (by rewrite forallb_four).
    pose proof (wf_build arr Hle Hall) as Hwf. unfold wf in Hwf.
    unfold build in *. cbn [pan] in *.
    split.
    + apply to_slice_array_of. rewrite length_fmap. by apply length_four.
    + apply Forall_forall. intros s Hs%list_elem_of_In.
      rewrite forallb_forall in Hwf. apply Hwf in Hs.
      unfold wf_section in Hs. apply andb_true_iff in Hs as [Hs _].
      by apply Nat.eqb_eq.
  - eexists. split; reflexivity.
Qed.

(** C4. [FromRaw] gives [ErrRaw] for every string whose length is not 16,
    whatever its characters; for a string of 16 characters one of which is
    neither a digit nor a mask it gives [ErrSection]; for a string of 16
    digits or masks it succeeds with the sections [s[0:4]], [s[4:8]],
    [s[8:12]] and [s[12:16]], and the issuer the classifier gives them. *)
Theorem FromRaw_contract (s : string) :
  FromRaw s
  = if negb (len s =? 16) then Err ErrRaw
    else if negb (every is_pan_char s) then Err ErrSection
    else
      let pan := Array4 (String.substring 0 4 s) (String.substring 4 4 s)
                        (String.substring 8 4 s) (String.substring 12 4 s) in
      Ok (mkInfo pan (cardType pan)).
Proof.
  rewrite FromRaw_spec.
  destruct (negb (len s =? 16)); [done|].
  by destruct (every is_pan_char s).
Qed.

(** ** The issuer classifier on four digits *)

(** A test that holds of [lo], [lo + 1], ..., [lo + count - 1]. *)
Lemma forallb_range (f : Z -> bool) (lo : Z) (count : nat) :
  forallb (fun k => f (lo + Z.of_nat k)%Z) (seq 0 count) = true ->
  forall n : Z, (lo <= n < lo + Z.of_nat count)%Z -> f n = true.
Proof.
  intros Hall n Hn. rewrite forallb_forall in Hall.
  replace n with (lo + Z.of_nat (Z.to_nat (n - lo)))%Z by lia.
  apply Hall, in_seq. lia.
Qed.

Lemma reMaster_decimal4 (n : Z) :
  (0 <= n < 10000)%Z -> MatchString reMaster (decimal4 n) = master_numbers n.
Proof.
  intros Hn. apply Bool.eqb_prop.
  apply (forallb_range
           (fun k => Bool.eqb (MatchString reMaster (decimal4 k)) (master_numbers k))
           0 (100 * 100)); [by vm_compute | lia].
Qed.

(** Between 2300 and 2699 the first section is of no known issuer. *)
Lemma cardType_gap (n : Z) (s1 s2 s3 : string) :
  (2300 <= n <= 2699)%Z ->
  cardType (Array4 (decimal4 n) s1 s2 s3) = UnknownCardType.
Proof.
  intros Hn.
  change (cardType (Array4 (decimal4 n) s1 s2 s3))
    with (cardType (Array4 (decimal4 n) "" "" "")).
  apply Z.eqb_eq.
  apply (forallb_range
           (fun k => (cardType (Array4 (decimal4 k) "" "" "") =? UnknownCardType)%Z)
           2300 400); [by vm_compute | lia].
Qed.

(** C2. The code at the failing input: the first section ["2300"] lies in
    the range 2221-2720, and [FromRaw "2300000000000000"] has the card type
    [UnknownCardType], not [MasterCard]. The two ends of the range are
    MasterCard, and the sections ["2220"] and ["2721"] next to them are of
    no known issuer, as the claim says. *)
Theorem CardType_2300_unknown :
  (exists p, FromRaw "2300000000000000" = Ok p
             /\ at0 (pan p) = "2300"
             /\ Info.CardType p = UnknownCardType)
  /\ (exists p, FromRaw "2221000000000000" = Ok p /\ Info.CardType p = MasterCard)
  /\ (exists p, FromRaw "2720000000000000" = Ok p /\ Info.CardType p = MasterCard)
  /\ (exists p, FromRaw "2220000000000000" = Ok p
                /\ Info.CardType p = UnknownCardType)
  /\ (exists p, FromRaw "2721000000000000" = Ok p
                /\ Info.CardType p = UnknownCardType).
Proof. repeat split; eexists; repeat split; reflexivity. Qed.

(** C5, as the code has it. [FromMasked] gives [ErrMasked] exactly when
    [first6] has not 6 characters or [last4] has not 4; with these lengths
    it gives [ErrSection] when a character of [first6] or of [last4] is
    neither a digit nor a mask, and it succeeds otherwise, with the sections
    [first6[0:4]], [first6[4:6] + "**"], ["****"] and [last4], so that
    [RawPAN()] is [first6 + "******" + last4]. *)
Theorem FromMasked_contract (first6 last4 : string) :
  FromMasked first6 last4
  = (if negb (len first6 =? 6) || negb (len last4 =? 4) then Err ErrMasked
     else if negb (every is_pan_char first6 && every is_pan_char last4)
     then Err ErrSection
     else
       let pan := Array4 (String.substring 0 4 first6)
                         (String.substring 4 2 first6 +:+ "**") "****" last4 in
       Ok (mkInfo pan (cardType pan)))
  /\ (forall p, FromMasked first6 last4 = Ok p ->
        Info.RawPAN p = first6 +:+ "******" +:+ last4).
Proof.
  split.
  - rewrite FromMasked_spec.
    destruct (_ || _); [done|].
    by destruct (every is_pan_char first6 && every is_pan_char last4).
  - intros p. rewrite FromMasked_spec.
    destruct (Nat.eqb_spec (len first6) 6) as [H6|H6]; [|done].
    destruct (Nat.eqb_spec (len last4) 4) as [H4|H4]; [|done].
    cbn [negb orb]. destruct (_ && _); [|done]. intros [= <-].
    explode_string H6. explode_string H4. reflexivity.
Qed.

(** C5, a counterexample to the claim as stated: both arguments have the
    required lengths and the call fails, with an error that is not
    [ErrMasked]. *)
Lemma FromMasked_not_only_ErrMasked :
  len "12345a" = 6 /\ len "3456" = 4
  /\ FromMasked "12345a" "3456" = Err ErrSection
  /\ ErrSection <> ErrMasked.
Proof. repeat split. discriminate. Qed.

(** C6. For every PAN [p] a constructor returned that contains no mask
    character, [FromRaw (RawPAN p)] succeeds and returns [p] itself: the
    same four sections and the same card type. *)
Theorem FromRaw_RawPAN (p : info) :
  Constructed p ->
  some is_mask (Info.RawPAN p) = false ->
  FromRaw (Info.RawPAN p) = Ok p.
Proof.
  intros Hc _. pose proof (Constructed_typ p Hc) as Htyp.
  destruct (wf_inv p (Constructed_wf p Hc))
    as (a0 & a1 & a2 & a3 & b0 & b1 & b2 & b3 & c0 & c1 & c2 & c3
        & d0 & d1 & d2 & d3 & Hpan & Hall).
  destruct p as [sections t]. cbn [pan typ] in *. subst sections t.
  rewrite FromRaw_spec. unfold Info.RawPAN.
  cbn [pan to_slice Join at0 at1 at2 at3].
  rewrite !app_cons, !app_empty_l. cbn [String.length Nat.eqb negb every].
  cbn [forallb] in Hall. rewrite !andb_true_iff in Hall.
  destruct Hall as (-> & -> & -> & -> & -> & -> & -> & -> & -> & -> & -> & ->
                    & -> & -> & -> & -> & _).
  reflexivity.
Qed.

Lemma FromRaw_RawPAN_witness :
  FromRaw "4111111111111111" = Ok (build ["4111"; "1111"; "1111"; "1111"])
  /\ some is_mask (Info.RawPAN (build ["4111"; "1111"; "1111"; "1111"])) = false
  /\ FromRaw (Info.RawPAN (build ["4111"; "1111"; "1111"; "1111"]))
     = Ok (build ["4111"; "1111"; "1111"; "1111"]).
Proof.
  split; [reflexivity|]. split; [reflexivity|].
  apply (FromRaw_RawPAN (build ["4111"; "1111"; "1111"; "1111"])).
  - apply (by_FromRaw _ "4111111111111111"). reflexivity.
  - reflexivity.
Defined.

(** C7, as the code has it. [FromRaw "1234567890123456"] succeeds, and the
    PAN it returns prints as ["1234-5678-9012-3456"], is masked as
    ["1234-56**-****-3456"], has the checksum ["6"] and the card type
    [UnknownCardType]: its first digit is 1, and no rule of the classifier
    starts with 1. *)
Theorem FromRaw_sample :
  exists p,
    FromRaw "1234567890123456" = Ok p
    /\ Info.PAN p = "1234-5678-9012-3456"
    /\ Info.Masked p = Ok "1234-56**-****-3456"
    /\ Info.Checksum p = Ok "6"
    /\ Info.CardType p = UnknownCardType.
Proof. eexists. repeat split; reflexivity. Qed.

(** C7, a counterexample to the claim as stated: the card type of the PAN
    that [FromRaw "1234567890123456"] returns is not [VISACard]. *)
Lemma FromRaw_sample_not_visa :
  exists p,
    FromRaw "1234567890123456" = Ok p /\ Info.CardType p <> VISACard.
Proof. eexists. split; [reflexivity|]. discriminate. Qed.

(** ** Calls through the interface [Info] *)

(** On a well-formed PAN no slice expression of a method is out of
    range. *)
Lemma call_no_panic (m : method) (p : info) :
  wf p = true -> panicked (fst (call m p)) = false.
Proof.
  intros Hwf. destruct m; try reflexivity.
  - destruct (wf_inv p Hwf) as (? & ? & ? & ? & ? & ? & ? & ? & ? & ? & ? & ?
                                & ? & ? & ? & ? & Hpan & _).
    cbn [call fst]. unfold Info.Checksum. rewrite Hpan. reflexivity.
  - destruct (wf_inv p Hwf) as (? & ? & ? & ? & ? & ? & ? & ? & ? & ? & ? & ?
                                & ? & ? & ? & ? & Hpan & _).
    cbn [call fst]. unfold Info.First6. rewrite Hpan. reflexivity.
  - destruct (wf_inv p Hwf) as (? & ? & ? & ? & ? & ? & ? & ? & ? & ? & ? & ?
                                & ? & ? & ? & ? & Hpan & _).
    cbn [call fst]. unfold Info.FullFirst6. rewrite Hpan. reflexivity.
  - destruct (wf_inv p Hwf) as (? & ? & ? & ? & ? & ? & ? & ? & ? & ? & ? & ?
                                & ? & ? & ? & ? & Hpan & _).
    cbn [call fst]. unfold Info.RawMasked, Info.First6. rewrite Hpan. reflexivity.
  - destruct (wf_inv p Hwf) as (? & ? & ? & ? & ? & ? & ? & ? & ? & ? & ? & ?
                                & ? & ? & ? & ? & Hpan & _).
    cbn [call fst]. unfold Info.Masked. rewrite Hpan. reflexivity.
  - cbn [call fst]. rewrite (Validate_wf p Hwf). unfold Validate_spec.
    destruct (some is_mask _); [done|]. by destruct (_ =? 0)%Z.
Qed.

(** C8. Every PAN returned without error by [FromSlice], [FromPart],
    [FromDashed], [FromRaw] or [FromMasked] has exactly 4 sections, each of
    exactly 4 characters, each character a digit or the mask. A call of any
    method leaves the PAN as it was, hence with the invariant, and does
    not panic. *)
Theorem Constructed_invariant (p : info) :
  Constructed p ->
  length (to_slice (pan p)) = 4
  /\ Forall (fun s => len s = 4 /\ every is_pan_char s = true) (to_slice (pan p))
  /\ forall m : method,
       snd (call m p) = p
       /\ wf (snd (call m p)) = true
       /\ panicked (fst (call m p)) = false.
Proof.
  intros Hwf%Constructed_wf. split; [reflexivity|]. split.
  - unfold wf in Hwf. rewrite forallb_forall in Hwf.
    apply Forall_forall. intros s Hs%list_elem_of_In%Hwf.
    unfold wf_section in Hs. apply andb_true_iff in Hs as [Hlen Hch].
    by apply Nat.eqb_eq in Hlen.
  - intros m. split; [by destruct m|]. split.
    + by destruct m.
    + by apply call_no_panic.
Qed.

Lemma Constructed_invariant_witness :
  FromMasked "411111" "1111" = Ok (build ["4111"; "11**"; "****"; "1111"])
  /\ Forall (fun s => len s = 4 /\ every is_pan_char s = true)
       ["4111"; "11**"; "****"; "1111"].
Proof.
  split; [reflexivity|].
  apply (Constructed_invariant (build ["4111"; "11**"; "****"; "1111"])).
  apply (by_FromMasked _ "411111" "1111"). reflexivity.
Defined.

(** C9. Two PANs returned by constructors that have the same first section
    have the same card type, whatever their other three sections are. *)
Theorem CardType_first_section (p q : info) :
  Constructed p -> Constructed q ->
  at0 (pan p) = at0 (pan q) ->
  Info.CardType p = Info.CardType q.
Proof.
  intros Hp%Constructed_typ Hq%Constructed_typ H0.
  unfold Info.CardType. rewrite Hp, Hq. unfold cardType. by rewrite H0.
Qed.

Lemma CardType_first_section_witness :
  FromRaw "5500123456789012" = Ok (build ["5500"; "1234"; "5678"; "9012"])
  /\ FromDashed "5500---0000" = Ok (build ["5500"; "****"; "****"; "0000"])
  /\ at0 (pan (build ["5500"; "1234"; "5678"; "9012"]))
     = at0 (pan (build ["5500"; "****"; "****"; "0000"]))
  /\ Info.CardType (build ["5500"; "1234"; "5678"; "9012"])
     = Info.CardType (build ["5500"; "****"; "****"; "0000"]).
Proof.
  split; [reflexivity|]. split; [reflexivity|]. split; [reflexivity|].
  apply CardType_first_section.
  - apply (by_FromRaw _ "5500123456789012"). reflexivity.
  - apply (by_FromDashed _ "5500---0000"). reflexivity.
  - reflexivity.
Defined.

(** C10. Splitting the empty string on the dash gives one empty fragment,
    and [FromDashed ""] succeeds with the PAN that prints as
    ["****-****-****-****"]. A string of at most 4 characters, each a digit
    or a mask (so none a dash), is a single fragment, and [FromDashed]
    succeeds on it: the first section is the string completed with masks
    and the other three are masks. *)
Theorem FromDashed_single_fragment (s : string) :
  len s <= 4 -> every is_pan_char s = true ->
  Split_dash "" = [""]
  /\ (exists p, FromDashed "" = Ok p /\ Info.PAN p = "****-****-****-****")
  /\ Split_dash s = [s]
  /\ FromDashed s
     = (let pan := Array4 (s +:+ Repeat "*" (4 - len s)) "****" "****" "****" in
        Ok (mkInfo pan (cardType pan))).
Proof.
  intros Hlen Hch. split; [reflexivity|]. split.
  { eexists. split; reflexivity. }
  assert (Split_dash s = [s]) as Hsplit.
  { unfold Split_dash. rewrite split_from_no_dash by by apply pan_chars_no_dash.
    reflexivity. }
  split; [exact Hsplit|].
  unfold FromDashed. rewrite Hsplit, FromSlice_spec.
  cbn [length Nat.leb forallb andb]. unfold valid_fragment.
  rewrite (proj2 (Nat.leb_le _ _) Hlen), Hch. cbn [andb].
  unfold build, four. cbn. by rewrite pad4_alt.
Qed.

Lemma FromDashed_single_fragment_witness :
  len "12" <= 4 /\ every is_pan_char "12" = true
  /\ FromDashed "12" = Ok (build ["12**"; "****"; "****"; "****"]).
Proof.
  split; [simpl; lia|]. split; [reflexivity|].
  destruct (FromDashed_single_fragment "12")
    as (_ & _ & _ & ->); [simpl; lia | reflexivity |].
  reflexivity.
Defined.

(** * Further properties of the code *)

(** ** Card types *)

(** X1. [asCardType] is a projection: applied twice it gives what it gives
    once. What it returns is [UnknownCardType] or lies between [VISACard]
    and [endKnownCardType], and it leaves a value unchanged exactly when the
    value is one of these; so the end marker [endKnownCardType], which is
    no issuer, passes as a known card type ([t > endKnownCardType] is the
    test), while the begin marker does not. *)
Theorem asCardType_range (t : CardType) :
  asCardType (asCardType t) = asCardType t
  /\ (asCardType t = UnknownCardType
      \/ (VISACard <= asCardType t <= endKnownCardType)%Z)
  /\ (asCardType t = t
      <-> t = UnknownCardType \/ (VISACard <= t <= endKnownCardType)%Z)
  /\ asCardType beginKnownCardType = UnknownCardType
  /\ asCardType endKnownCardType = endKnownCardType.
Proof.
  assert (forall u : Z,
            asCardType u
            = if ((2 <=? u) && (u <=? 7))%Z then u else UnknownCardType) as Hc.
  { intros u. unfold asCardType, beginKnownCardType, endKnownCardType.
    rewrite Z.gtb_ltb.
    destruct (Z.leb_spec u 1), (Z.ltb_spec 7 u), (Z.leb_spec 2 u),
      (Z.leb_spec u 7); cbn; lia || reflexivity. }
  unfold UnknownCardType, VISACard, endKnownCardType in *.
  repeat split; try reflexivity.
  - rewrite !Hc. destruct (Z.leb_spec 2 t), (Z.leb_spec t 7); cbn; try reflexivity.
    destruct (Z.leb_spec 2 t), (Z.leb_spec t 7); cbn; lia || reflexivity.
  - rewrite Hc. destruct (Z.leb_spec 2 t), (Z.leb_spec t 7); cbn; lia.
  - rewrite Hc. destruct (Z.leb_spec 2 t), (Z.leb_spec t 7); cbn; lia.
  - rewrite Hc. destruct (Z.leb_spec 2 t), (Z.leb_spec t 7); cbn; lia.
Qed.

(** X2. Whatever the sections, the classifier returns one of the six
    declared card types, never a marker of the constant block, and
    [asCardType] leaves its result unchanged. *)
Theorem cardType_declared (sections : array4) :
  In (cardType sections)
     [VISACard; MasterCard; AmericanExpress; JCBCard; UnionPay; UnknownCardType]
  /\ asCardType (cardType sections) = cardType sections.
Proof.
  unfold cardType.
  destruct (MatchString reVISA _); [cbn; tauto|].
  destruct (MatchString reMaster _); [cbn; tauto|].
  destruct (MatchString reAmericanExpress _); [cbn; tauto|].
  destruct (MatchString reJCB _); [cbn; tauto|].
  destruct (MatchString reUnionPay _); cbn; tauto.
Qed.

(** X3. The classifier on a first section of four decimal digits, for
    every number from 0000 to 9999: Visa for 4000-4999; MasterCard for
    2221-2299, 2700-2720 and 5100-5599; American Express for 3400-3499 and
    3700-3799; JCB for 3528-3589; UnionPay for 6200-6299 and 8100-8199;
    unknown for every other number. The other sections play no part. *)
Theorem cardType_four_digits (n : Z) (s1 s2 s3 : string) :
  (0 <= n < 10000)%Z ->
  cardType (Array4 (decimal4 n) s1 s2 s3) = issuer_of_number n.
Proof.
  intros Hn.
  change (cardType (Array4 (decimal4 n) s1 s2 s3))
    with (cardType (Array4 (decimal4 n) "" "" "")).
  apply Z.eqb_eq.
  apply (forallb_range
           (fun k => (cardType (Array4 (decimal4 k) "" "" "") =? issuer_of_number k)%Z)
           0 (100 * 100)); [by vm_compute | lia].
Qed.

Lemma cardType_four_digits_witness :
  (0 <= 3589 < 10000)%Z
  /\ cardType (Array4 (decimal4 3589) "0000" "0000" "0000") = JCBCard.
Proof.
  split; [lia|].
  rewrite (cardType_four_digits 3589 "0000" "0000" "0000") by lia.
  reflexivity.
Defined.

(** X4. The classifier reads the first character first: the card type is
    Visa exactly when the first section starts with 4, and it is unknown
    when the first section is empty or starts with a character other than
    2, 3, 4, 5, 6 and 8, a mask character for one. *)
Theorem cardType_first_character (sections : array4) :
  (cardType sections = VISACard
   <-> exists rest, at0 sections = String "4" rest)
  /\ (at0 sections = "" -> cardType sections = UnknownCardType)
  /\ (forall (a : ascii) (rest : string),
        at0 sections = String a rest ->
        existsb (Ascii.eqb a) ["2"; "3"; "4"; "5"; "6"; "8"]%char = false ->
        cardType sections = UnknownCardType).
Proof.
  destruct sections as [s0 s1 s2 s3]. cbn [at0].
  unfold cardType, reVISA, reMaster, reAmericanExpress, reJCB, reUnionPay.
  rewrite !MatchString_anchored. cbn [at0].
  split; [|split].
  - destruct s0 as [|a s0].
    + cbn. split; [discriminate | intros [rest H]; discriminate].
    + cbn [match_here]. rewrite andb_true_r.
      destruct (Ascii.eqb_spec a "4") as [->|Hne].
      * split; eauto.
      * split; [|intros [rest [= ? ?]]; done].
        repeat match goal with
        | |- context [if ?b then _ else _] => destruct b
        end; discriminate.
  - intros ->. reflexivity.
  - intros a rest ->. cbn [existsb]. rewrite !orb_false_iff.
    intros (H2 & H3 & H4 & H5 & H6 & H8 & _).
    cbn [lit match_here]. rewrite H2, H3, H4, H5, H6, H8. reflexivity.
Qed.

Ltac one_hit :=
  cbn;
  repeat match goal with
  | |- context [if ?b then _ else _] => destruct b; cbn
  end;
  lia.

(** X5. The five expressions of the classifier exclude one another: no
    string is matched by two of them, so the order of the cases of the
    switch of [cardType] decides nothing. *)
Theorem rules_disjoint (s : string) :
  length (List.filter (fun re => MatchString re s) rules) <= 1.
Proof.
  unfold rules, reVISA, reMaster, reAmericanExpress, reJCB, reUnionPay.
  cbn [List.filter]. rewrite !MatchString_anchored.
  destruct s as [|a s]; [cbn; lia|].
  cbn [lit match_here].
  destruct (Ascii.eqb_spec a "4") as [->|N4]; [one_hit|].
  destruct (Ascii.eqb_spec a "5") as [->|N5]; [one_hit|].
  destruct (Ascii.eqb_spec a "2") as [->|N2]; [one_hit|].
  destruct (Ascii.eqb_spec a "6") as [->|N6]; [one_hit|].
  destruct (Ascii.eqb_spec a "8") as [->|N8]; [one_hit|].
  destruct (Ascii.eqb_spec a "3") as [->|N3]; [|one_hit].
  destruct s as [|b s]; [one_hit|].
  destruct (Ascii.eqb_spec b "5") as [->|B5]; one_hit.
Qed.

(** ** Fragments and dashes *)

Lemma split_from_dash (s cur t : string) :
  some is_dash s = false ->
  split_from "-" cur (s +:+ String "-" t)
  = (String.rev cur +:+ s) :: split_from "-" "" t.
Proof.
  revert cur. induction s as [|c s IH]; intros cur; cbn [some].
  - intros _. rewrite app_empty_l, app_empty_r. reflexivity.
  - intros [Hc Hs]%orb_false_iff. unfold is_dash in Hc.
    rewrite app_cons. cbn [split_from]. rewrite Hc, IH by done.
    unfold String.rev. cbn [String.rev_app]. by rewrite !rev_app_app.
Qed.

(** Splitting undoes joining, for fragments without a dash. *)
Lemma Split_Join (e : string) (l : list string) :
  Forall (fun v => some is_dash v = false) (e :: l) ->
  Split_dash (Join (e :: l) "-") = e :: l.
Proof.
  revert e. induction l as [|e' l IH]; intros e He.
  - apply Forall_cons in He as [He _]. cbn [Join].
    unfold Split_dash. by rewrite split_from_no_dash.
  - apply Forall_cons in He as [He Hl].
    change (Join (e :: e' :: l) "-") with (e +:+ "-" +:+ Join (e' :: l) "-").
    rewrite app_cons, app_empty_l. unfold Split_dash.
    rewrite split_from_dash by done. f_equal. by apply IH.
Qed.

Lemma length_split_from (cur s : string) :
  length (split_from "-" cur s) = S (count is_dash s).
Proof.
  revert cur. induction s as [|c s IH]; intros cur; [done|].
  cbn [split_from count]. unfold is_dash at 1.
  destruct (Ascii.eqb c "-"); cbn [length]; by rewrite IH.
Qed.

(** X6. [FromDashed] of fragments joined with dashes is [FromSlice] of the
    fragments, whenever no fragment holds a dash: the same PAN, or the same
    error. The empty slice is joined to the empty string, which is one
    empty fragment, and gives the same all-mask PAN. *)
Theorem FromDashed_Join (arr : list string) :
  Forall (fun v => some is_dash v = false) arr ->
  FromDashed (Join arr "-") = FromSlice arr.
Proof.
  intros Harr. unfold FromDashed. destruct arr as [|e l].
  - reflexivity.
  - by rewrite Split_Join.
Qed.

Lemma FromDashed_Join_witness :
  Forall (fun v => some is_dash v = false) ["1234"; "56"; ""; "3456"]
  /\ FromDashed "1234-56--3456" = FromSlice ["1234"; "56"; ""; "3456"].
Proof.
  assert (Forall (fun v => some is_dash v = false) ["1234"; "56"; ""; "3456"])
    as H by (repeat constructor).
  split; [exact H|]. exact (FromDashed_Join _ H).
Defined.

(** X7. A string with four dashes or more is split into more than four
    fragments, and [FromDashed] fails on it with [ErrSection], whatever
    stands between the dashes. *)
Theorem FromDashed_too_many_dashes (str : string) :
  4 <= count is_dash str -> FromDashed str = Err ErrSection.
Proof.
  intros H. unfold FromDashed. rewrite FromSlice_spec.
  unfold Split_dash. rewrite length_split_from.
  by rewrite (proj2 (Nat.leb_gt _ _)) by lia.
Qed.

Lemma FromDashed_too_many_dashes_witness :
  4 <= count is_dash "1234-5678-9012-3456-"
  /\ FromDashed "1234-5678-9012-3456-" = Err ErrSection.
Proof.
  split; [cbn; lia|]. apply FromDashed_too_many_dashes. cbn. lia.
Defined.

(** ** Constructors and what they print *)

(** A PAN with the invariant, whose issuer is the one of its sections, is
    what [FromSlice] builds from its own sections. *)
Lemma FromSlice_sections (p : info) :
  wf p = true -> typ p = cardType (pan p) ->
  FromSlice (to_slice (pan p)) = Ok p.
Proof.
  intros Hwf Htyp.
  destruct (wf_inv p Hwf)
    as (a0 & a1 & a2 & a3 & b0 & b1 & b2 & b3 & c0 & c1 & c2 & c3
        & d0 & d1 & d2 & d3 & Hpan & Hall).
  destruct p as [sections t]. cbn [pan typ] in *. subst sections t.
  rewrite FromSlice_spec. unfold valid_fragment.
  cbn [to_slice at0 at1 at2 at3 length Nat.leb forallb String.length every andb].
  cbn [forallb] in Hall. rewrite !andb_true_iff in Hall.
  destruct Hall as (-> & -> & -> & -> & -> & -> & -> & -> & -> & -> & -> & ->
                    & -> & -> & -> & -> & _).
  reflexivity.
Qed.

Lemma pan_chars_dash_free (p : info) :
  wf p = true ->
  Forall (fun v => some is_dash v = false) (to_slice (pan p)).
Proof.
  unfold wf. rewrite forallb_forall. intros Hwf.
  apply Forall_forall. intros v Hv%list_elem_of_In%Hwf.
  unfold wf_section in Hv. apply andb_true_iff in Hv as [_ Hv].
  by apply pan_chars_no_dash.
Qed.

(** X8. What a PAN prints is read back as the same PAN: for every PAN [p]
    a constructor returned, [FromSlice] of its four sections and
    [FromDashed] of [p.PAN()] both succeed and return [p], sections and
    card type. *)
Theorem FromDashed_PAN (p : info) :
  Constructed p ->
  FromSlice (to_slice (pan p)) = Ok p
  /\ FromDashed (Info.PAN p) = Ok p.
Proof.
  intros Hc.
  pose proof (Constructed_wf p Hc) as Hwf.
  pose proof (FromSlice_sections p Hwf (Constructed_typ p Hc)) as Hs.
  split; [exact Hs|].
  unfold FromDashed, Info.PAN.
  pose proof (pan_chars_dash_free p Hwf) as Hd.
  unfold to_slice in *. by rewrite Split_Join.
Qed.

Lemma FromDashed_PAN_witness :
  FromMasked "411111" "1111" = Ok (build ["4111"; "11**"; "****"; "1111"])
  /\ FromDashed (Info.PAN (build ["4111"; "11**"; "****"; "1111"]))
     = Ok (build ["4111"; "11**"; "****"; "1111"]).
Proof.
  split; [reflexivity|].
  apply (FromDashed_PAN (build ["4111"; "11**"; "****"; "1111"])).
  apply (by_FromMasked _ "411111" "1111"). reflexivity.
Defined.

(** X9. [FromRaw] keeps the string it is given: when it succeeds,
    [RawPAN()] of the result is the argument, and [PAN()] is the argument
    with a dash after every fourth character. *)
Theorem RawPAN_FromRaw (str : string) (p : info) :
  FromRaw str = Ok p ->
  Info.RawPAN p = str
  /\ Info.PAN p
     = String.substring 0 4 str +:+ "-" +:+ String.substring 4 4 str +:+ "-"
       +:+ String.substring 8 4 str +:+ "-" +:+ String.substring 12 4 str.
Proof.
  rewrite FromRaw_spec.
  destruct (Nat.eqb_spec (len str) 16) as [Hlen|Hlen]; [|done].
  cbn [negb]. destruct (every is_pan_char str); [|done].
  intros [= <-]. explode_string Hlen. split; reflexivity.
Qed.

Lemma RawPAN_FromRaw_witness :
  FromRaw "4111111111111111" = Ok (build ["4111"; "1111"; "1111"; "1111"])
  /\ Info.RawPAN (build ["4111"; "1111"; "1111"; "1111"]) = "4111111111111111".
Proof.
  split; [reflexivity|].
  apply (RawPAN_FromRaw "4111111111111111" (build ["4111"; "1111"; "1111"; "1111"])).
  reflexivity.
Defined.

(** X10. With a first argument of 6 characters and a second of 4,
    [FromMasked] is [FromRaw] of the first, six mask characters and the
    second: the same PAN, or the same error. *)
Theorem FromMasked_as_FromRaw (first6 last4 : string) :
  len first6 = 6 -> len last4 = 4 ->
  FromMasked first6 last4 = FromRaw (first6 +:+ "******" +:+ last4).
Proof.
  intros H6 H4. explode_string H6. explode_string H4. reflexivity.
Qed.

Lemma FromMasked_as_FromRaw_witness :
  len "411111" = 6 /\ len "1111" = 4
  /\ FromMasked "411111" "1111" = FromRaw "411111******1111".
Proof.
  split; [reflexivity|]. split; [reflexivity|].
  exact (FromMasked_as_FromRaw "411111" "1111" eq_refl eq_refl).
Defined.

(** X11. Omitted fragments are empty fragments: [FromSlice] gives the same
    result when empty strings are added at the end of a slice, up to four
    entries. *)
Theorem FromSlice_trailing_empty (arr : list string) (k : nat) :
  length arr + k <= 4 ->
  FromSlice (arr ++ replicate k "") = FromSlice arr.
Proof.
  intros Hk. rewrite !FromSlice_spec.
  assert (four (arr ++ replicate k "") = four arr) as ->.
  { unfold four. rewrite length_app, length_replicate, <- app_assoc.
    f_equal. rewrite <- replicate_add. f_equal. lia. }
  assert (forallb valid_fragment (arr ++ replicate k "")
          = forallb valid_fragment arr) as ->.
  { rewrite forallb_app.
    assert (forallb valid_fragment (replicate k "") = true) as ->;
      [|apply andb_true_r].
    clear Hk. induction k as [|k IH]; [done|]. exact IH. }
  rewrite length_app, length_replicate.
  rewrite (proj2 (Nat.leb_le (length arr + k) 4)) by lia.
  by rewrite (proj2 (Nat.leb_le (length arr) 4)) by lia.
Qed.

Lemma FromSlice_trailing_empty_witness :
  length ["1234"; "56"] + 2 <= 4
  /\ FromSlice ["1234"; "56"; ""; ""] = FromSlice ["1234"; "56"].
Proof.
  split; [cbn; lia|].
  apply (FromSlice_trailing_empty ["1234"; "56"] 2). cbn. lia.
Defined.

(** X12. No constructor panics, whatever its arguments: every slice
    expression of [FromRaw] and of [FromMasked] is guarded by the length
    test before it, and [FromSlice] reads four entries of a slice it has
    made four entries long. [FromDashed] fails with [ErrSection] only. *)
Theorem constructors_never_panic (arr : list string) (str first6 last4 : string) :
  FromSlice arr <> Panic
  /\ FromPart arr <> Panic
  /\ FromDashed str <> Panic
  /\ FromRaw str <> Panic
  /\ FromMasked first6 last4 <> Panic
  /\ (forall e, FromDashed str = Err e -> e = ErrSection).
Proof.
  assert (forall l, FromSlice l <> Panic) as Hs.
  { intros l. rewrite FromSlice_spec. by destruct (_ && _). }
  repeat split; try apply Hs.
  - rewrite FromRaw_spec. destruct (negb _); [done|]. by destruct (every _ _).
  - rewrite FromMasked_spec. destruct (_ || _); [done|]. by destruct (_ && _).
  - intros e. unfold FromDashed. rewrite FromSlice_spec.
    destruct (_ && _); [done|]. by intros [= <-].
Qed.

(** X13. The message of an error tells the error: two errors with the same
    [Error()] are the same error. *)
Theorem Error_injective (e1 e2 : ErrPANFormat) :
  Error e1 = Error e2 <-> e1 = e2.
Proof.
  split; [|by intros ->].
  unfold Error. apply (inj (String.app _)).
Qed.

(** ** Masking *)

(** X14. Everything a PAN with the invariant prints is made of its sixteen
    characters [RawPAN()]: the first six, the last four and the last one
    are [First6()], [Last4()] and [Checksum()]; [PAN()] puts a dash after
    every fourth character; and the masked forms show the first six and the
    last four characters only, the six characters between them being
    printed as mask characters, and the full forms show the first six, or
    the last four, alone. No method panics on the way. *)
Theorem printed_forms (p : info) :
  wf p = true ->
  Info.First6 p = Ok (String.substring 0 6 (Info.RawPAN p))
  /\ Info.Last4 p = String.substring 12 4 (Info.RawPAN p)
  /\ Info.Checksum p = Ok (String.substring 15 1 (Info.RawPAN p))
  /\ Info.PAN p
     = String.substring 0 4 (Info.RawPAN p) +:+ "-"
       +:+ String.substring 4 4 (Info.RawPAN p) +:+ "-"
       +:+ String.substring 8 4 (Info.RawPAN p) +:+ "-"
       +:+ String.substring 12 4 (Info.RawPAN p)
  /\ Info.RawMasked p
     = Ok (String.substring 0 6 (Info.RawPAN p) +:+ "******"
           +:+ String.substring 12 4 (Info.RawPAN p))
  /\ Info.Masked p
     = Ok (String.substring 0 4 (Info.RawPAN p) +:+ "-"
           +:+ String.substring 4 2 (Info.RawPAN p) +:+ "**-****-"
           +:+ String.substring 12 4 (Info.RawPAN p))
  /\ Info.FullFirst6 p
     = Ok (String.substring 0 4 (Info.RawPAN p) +:+ "-"
           +:+ String.substring 4 2 (Info.RawPAN p) +:+ "**-****-****")
  /\ Info.FullLast4 p
     = "****-****-****-" +:+ String.substring 12 4 (Info.RawPAN p).
Proof.
  intros (a0 & a1 & a2 & a3 & b0 & b1 & b2 & b3 & c0 & c1 & c2 & c3
          & d0 & d1 & d2 & d3 & Hpan & _)%wf_inv.
  destruct p as [sections t]. cbn [pan] in Hpan. subst sections.
  repeat split; reflexivity.
Qed.

Lemma printed_forms_witness :
  wf (build ["1234"; "5678"; "9012"; "3456"]) = true
  /\ Info.RawMasked (build ["1234"; "5678"; "9012"; "3456"])
     = Ok "123456******3456".
Proof.
  split; [reflexivity|].
  destruct (printed_forms (build ["1234"; "5678"; "9012"; "3456"]) eq_refl)
    as (_ & _ & _ & _ & -> & _).
  reflexivity.
Defined.

(** X15. Masking a PAN is building the PAN of its first six and last four
    characters: for every PAN [p] a constructor returned,
    [FromMasked(p.First6(), p.Last4())] succeeds, and the PAN [q] it returns
    has [p.RawMasked()] as [RawPAN()], [p.Masked()] as [PAN()] and the card
    type of [p]; masking [q] again changes nothing. *)
Theorem FromMasked_First6_Last4 (p : info) :
  Constructed p ->
  exists (f : string) (q : info),
    Info.First6 p = Ok f
    /\ FromMasked f (Info.Last4 p) = Ok q
    /\ Info.RawMasked p = Ok (Info.RawPAN q)
    /\ Info.Masked p = Ok (Info.PAN q)
    /\ Info.CardType q = Info.CardType p
    /\ Info.RawMasked q = Info.RawMasked p
    /\ Info.Masked q = Info.Masked p.
Proof.
  intros Hc. pose proof (Constructed_typ p Hc) as Htyp.
  destruct (wf_inv p (Constructed_wf p Hc))
    as (a0 & a1 & a2 & a3 & b0 & b1 & b2 & b3 & c0 & c1 & c2 & c3
        & d0 & d1 & d2 & d3 & Hpan & Hall).
  destruct p as [sections t]. cbn [pan typ] in *. subst sections t.
  cbn [forallb] in Hall. rewrite !andb_true_iff in Hall.
  destruct Hall as (A0 & A1 & A2 & A3 & B0 & B1 & _ & _ & _ & _ & _ & _
                    & D0 & D1 & D2 & D3 & _).
  exists (String a0 (String a1 (String a2 (String a3 (String b0 (String b1 "")))))).
  eexists. split; [reflexivity|]. split.
  { rewrite FromMasked_spec.
    cbn [Info.Last4 pan at3 String.length Nat.eqb negb orb every].
    rewrite A0, A1, A2, A3, B0, B1, D0, D1, D2, D3. reflexivity. }
  repeat split; reflexivity.
Qed.

Lemma FromMasked_First6_Last4_witness :
  FromRaw "4111222233334444" = Ok (build ["4111"; "2222"; "3333"; "4444"])
  /\ exists (f : string) (q : info),
       Info.First6 (build ["4111"; "2222"; "3333"; "4444"]) = Ok f
       /\ FromMasked f (Info.Last4 (build ["4111"; "2222"; "3333"; "4444"])) = Ok q
       /\ Info.RawMasked (build ["4111"; "2222"; "3333"; "4444"])
          = Ok (Info.RawPAN q).
Proof.
  split; [reflexivity|].
  destruct (FromMasked_First6_Last4 (build ["4111"; "2222"; "3333"; "4444"]))
    as (f & q & H1 & H2 & H3 & _).
  - apply (by_FromRaw _ "4111222233334444"). reflexivity.
  - exists f, q. auto.
Defined.

(** X16. A PAN made by [FromMasked] cannot be validated: [Validate]
    returns [ErrValidateMasked] on it, whatever the two arguments were. *)
Theorem Validate_FromMasked (first6 last4 : string) (p : info) :
  FromMasked first6 last4 = Ok p ->
  Info.Validate p = Err ErrValidateMasked.
Proof.
  rewrite FromMasked_spec.
  destruct (Nat.eqb_spec (len first6) 6) as [H6|H6]; [|done].
  destruct (Nat.eqb_spec (len last4) 4) as [H4|H4]; [|done].
  cbn [negb orb]. destruct (_ && _); [|done]. intros [= <-].
  explode_string H6. explode_string H4.
  unfold Info.Validate. rewrite Index_mask, negb_involutive.
  assert (forall c0 c1 c2 c3 c4 c5 rest,
            some is_mask
              (String c0 (String c1 (String c2 (String c3 (String c4 (String c5
                 (String "*" rest))))))) = true) as Hmask.
  { intros. cbn [some]. change (is_mask "*") with true.
    cbn [orb]. by rewrite !orb_true_r. }
  match goal with
  | |- context [some is_mask ?raw] =>
      let raw' := eval cbv in raw in change raw with raw'
  end.
  by rewrite Hmask.
Qed.

Lemma Validate_FromMasked_witness :
  FromMasked "411111" "1111" = Ok (build ["4111"; "11**"; "****"; "1111"])
  /\ Info.Validate (build ["4111"; "11**"; "****"; "1111"])
     = Err ErrValidateMasked.
Proof.
  split; [reflexivity|].
  apply (Validate_FromMasked "411111" "1111"). reflexivity.
Defined.

(** ** What the loop of [FromSlice] writes *)

Lemma range_writes_spec (todo done : list string) :
  range_writes (length todo) (length done) (done ++ todo)
  = done ++ (pad4 <$> take (valid_prefix todo) todo)
         ++ drop (valid_prefix todo) todo.
Proof.
  revert done. induction todo as [|v todo IH]; intros done.
  - done.
  - cbn [length range_writes valid_prefix].
    rewrite list_lookup_middle by done. rewrite reSlicedPAN_spec.
    destruct (valid_fragment v) eqn:Hv; cbn [negb]; [|done].
    assert ((if len v <? 4
             then <[length done := v +:+ Repeat "*" (4 - len v)]> (done ++ v :: todo)
             else done ++ v :: todo) = (done ++ [pad4 v]) ++ todo) as ->.
    { unfold pad4. rewrite <- app_assoc. simpl.
      destruct (len v <? 4); [|done].
      rewrite <- (Nat.add_0_r (length done)) at 1.
      by rewrite insert_app_r. }
    replace (S (length done)) with (length (done ++ [pad4 v]))
      by (rewrite length_app; simpl; lia).
    rewrite IH. by rewrite <- app_assoc.
Qed.

Lemma valid_prefix_all (arr : list string) :
  valid_prefix arr <= length arr
  /\ (forallb valid_fragment arr = true <-> valid_prefix arr = length arr).
Proof.
  induction arr as [|v arr [IHle IHiff]]; [done|].
  cbn [valid_prefix forallb length]. destruct (valid_fragment v); cbn [andb].
  - split; [lia|]. rewrite IHiff. lia.
  - split; [lia|]. split; [done|lia].
Qed.

(** X17. [FromSlice] writes into the slice it is given. With a slice of 4
    entries nothing is appended, so the loop runs on the caller's slice
    itself, and when the loop is left the entries before the first fragment
    that does not match have been overwritten with their padded form, the
    others being untouched, also when the call fails with [ErrSection]
    (which it does exactly when there is such a fragment). On success the
    slice holds the four sections of the PAN. *)
Theorem FromSlice_overwrites (arr : list string) :
  length arr = 4 ->
  fill arr = arr
  /\ range_writes (length (fill arr)) 0 (fill arr)
     = (pad4 <$> take (valid_prefix arr) arr) ++ drop (valid_prefix arr) arr
  /\ (FromSlice arr = Err ErrSection <-> valid_prefix arr < 4)
  /\ (forall p, FromSlice arr = Ok p ->
        range_writes (length (fill arr)) 0 (fill arr) = to_slice (pan p)).
Proof.
  intros Hlen.
  assert (fill arr = arr) as Hfill.
  { rewrite fill_spec by lia. unfold four. rewrite Hlen. apply app_nil_r. }
  rewrite Hfill. pose proof (range_writes_spec arr []) as Hw.
  cbn [app length] in Hw. rewrite Hw. clear Hw.
  destruct (valid_prefix_all arr) as [Hle Hall]. rewrite Hlen in *.
  split; [done|]. split; [done|]. split.
  - rewrite FromSlice_spec, Hlen. cbn [Nat.leb andb].
    destruct (forallb valid_fragment arr).
    + split; [done|]. intros H. assert (valid_prefix arr = 4) by by apply Hall. lia.
    + split; [|done]. intros _.
      destruct (decide (valid_prefix arr = 4)) as [E|E]; [|lia].
      by apply Hall in E.
  - intros p (_ & Hv & ->)%FromSlice_Ok_inv.
    apply Hall in Hv. rewrite Hv, <- Hlen, firstn_all, drop_all, app_nil_r.
    unfold build. cbn [pan]. rewrite to_slice_array_of.
    + unfold four. rewrite Hlen. cbn. by rewrite app_nil_r.
    + rewrite length_fmap. apply length_four. lia.
Qed.

Lemma FromSlice_overwrites_witness :
  length ["12"; "3"; "x"; ""] = 4
  /\ FromSlice ["12"; "3"; "x"; ""] = Err ErrSection
  /\ range_writes (length (fill ["12"; "3"; "x"; ""])) 0 (fill ["12"; "3"; "x"; ""])
     = ["12**"; "3***"; "x"; ""].
Proof.
  split; [reflexivity|]. split; [reflexivity|].
  destruct (FromSlice_overwrites ["12"; "3"; "x"; ""] eq_refl) as (_ & -> & _).
  reflexivity.
Defined.

(** ** Validation, further *)

Lemma get_last_index (c : ascii) (s : string) :
  exists a, String.get (len s) (String c s) = Some a.
Proof.
  revert c. induction s as [|c' s IH]; intros c; [by exists c|].
  cbn [String.length String.get]. apply IH.
Qed.

(** X18. [Validate] reads the last byte of the concatenated sections
    without a test of their length: it panics exactly when all four
    sections are empty, as for the zero value of [info], and returns an
    outcome for every other value. *)
Theorem Validate_panics (i : info) :
  Info.Validate i = Panic <-> Info.RawPAN i = "".
Proof.
  unfold Info.Validate. generalize (Info.RawPAN i). intros raw.
  rewrite Index_mask, negb_involutive. destruct raw as [|c s].
  - split; reflexivity.
  - split; [|done]. destruct (some is_mask (String c s)); [done|].
    cbn [String.length]. rewrite Nat.sub_1_r. cbn [Nat.pred].
    destruct (get_last_index c s) as [a Ha].
    unfold byte_at. rewrite Ha. cbn [fmap option_fmap option_map or_panic].
    unfold slice_to, slice. cbn [String.length Nat.leb].
    rewrite (proj2 (Nat.leb_le (len s) (S (len s)))) by lia.
    cbn [andb mbind result_bind]. by destruct (negb _).
Qed.

Lemma is_digit_range (c : ascii) :
  is_digit c = true -> (0 <= digit_value (byte_of c) <= 9)%Z.
Proof.
  unfold is_digit, digit_value. intros [H1 H2]%andb_true_iff. lia.
Qed.

Lemma is_digit_pan_char (c : ascii) : is_digit c = true -> is_pan_char c = true.
Proof. unfold is_pan_char. by intros ->. Qed.

Lemma is_digit_not_mask (c : ascii) : is_digit c = true -> is_mask c = false.
Proof.
  unfold is_mask. destruct (Ascii.eqb_spec c "*") as [->|]; [|done].
  discriminate.
Qed.

Lemma every_digit_pan_char (s : string) :
  every is_digit s = true -> every is_pan_char s = true.
Proof.
  induction s as [|c s IH]; cbn [every]; [done|].
  intros [Hc Hs]%andb_true_iff. by rewrite is_digit_pan_char, IH.
Qed.

Lemma every_digit_no_mask (s : string) :
  every is_digit s = true -> some is_mask s = false.
Proof.
  induction s as [|c s IH]; cbn [every some]; [done|].
  intros [Hc Hs]%andb_true_iff. by rewrite is_digit_not_mask, IH.
Qed.

Lemma pan_chars_digits (s : string) :
  every is_pan_char s = true -> some is_mask s = false ->
  every is_digit s = true.
Proof.
  induction s as [|c s IH]; cbn [every some]; [done|].
  intros [Hc Hs]%andb_true_iff [Mc Ms]%orb_false_iff.
  unfold is_pan_char in Hc. rewrite Mc, orb_false_r in Hc.
  by rewrite Hc, IH.
Qed.

Lemma byte_of_inj (c c' : ascii) : byte_of c = byte_of c' -> c = c'.
Proof.
  unfold byte_of. intros H%(inj Z.of_N).
  by rewrite <- (ascii_N_embedding c), <- (ascii_N_embedding c'), H.
Qed.

Lemma bytes_app (s t : string) : bytes (s +:+ t) = bytes s ++ bytes t.
Proof.
  induction s as [|c s IH]; [done|].
  rewrite app_cons. cbn [bytes app]. by rewrite IH.
Qed.

Lemma length_bytes (s : string) : length (bytes s) = len s.
Proof. induction s as [|c s IH]; [done|]. cbn. by rewrite IH. Qed.

Lemma FromRaw_Ok_inv (str : string) (p : info) :
  FromRaw str = Ok p ->
  len str = 16 /\ every is_pan_char str = true /\ Info.RawPAN p = str.
Proof.
  rewrite FromRaw_spec.
  destruct (Nat.eqb_spec (len str) 16) as [Hlen|Hlen]; [|done].
  cbn [negb]. destruct (every is_pan_char str); [|done].
  intros [= <-]. split; [done|]. split; [done|].
  explode_string Hlen. reflexivity.
Qed.

(** Sixteen digits are read by [FromRaw] and checked by [Validate]. *)
Lemma Validate_digits (str : string) :
  len str = 16 -> every is_digit str = true ->
  FromRaw str ≫= Info.Validate
  = if (luhn_total (digit_value <$> bytes str) mod 10 =? 0)%Z
    then Ok tt else Err ErrValidate.
Proof.
  intros Hlen Hdig.
  destruct (FromRaw str) as [p| |] eqn:Hraw.
  - cbn [mbind result_bind].
    rewrite (Validate_wf p (Constructed_wf p (by_FromRaw p str Hraw))).
    apply FromRaw_Ok_inv in Hraw as (_ & _ & ->).
    unfold Validate_spec. by rewrite every_digit_no_mask.
  - exfalso. revert Hraw. rewrite FromRaw_spec, Hlen.
    by rewrite every_digit_pan_char.
  - exfalso. revert Hraw. rewrite FromRaw_spec, Hlen.
    by rewrite every_digit_pan_char.
Qed.

Lemma check_digit_arith (total x : Z) :
  (0 <= x <= 9)%Z ->
  ((total + x) mod 10 =? 0)%Z = (x =? (- total) mod 10)%Z.
Proof.
  intros Hx. apply eq_true_iff_eq. rewrite !Z.eqb_eq.
  Z.to_euclidean_division_equations. lia.
Qed.

(** X19. Every 15 digits have one check digit, and only one: for a string
    [body] of 15 digits there is a digit [d] such that, for every digit
    [c], the PAN [FromRaw(body + c)] is valid when [c] is [d] and fails
    with [ErrValidate] when it is another digit. *)
Theorem check_digit_unique (body : string) :
  len body = 15 -> every is_digit body = true ->
  exists d : Z,
    (0 <= d <= 9)%Z
    /\ forall c : ascii,
         is_digit c = true ->
         FromRaw (body +:+ String c "") ≫= Info.Validate
         = if (digit_value (byte_of c) =? d)%Z then Ok tt else Err ErrValidate.
Proof.
  intros Hlen Hdig.
  exists ((- luhn_sum 0 (digit_value <$> bytes body)) mod 10)%Z.
  split.
  { pose proof (Z.mod_pos_bound
                  (- luhn_sum 0 (digit_value <$> bytes body)) 10). lia. }
  intros c Hc. rewrite Validate_digits.
  - unfold luhn_total. rewrite bytes_app, fmap_app.
    cbn [bytes fmap list_fmap]. rewrite last_snoc, length_app.
    cbn [length default from_option].
    rewrite Nat.add_sub, take_app_length'
      by (by rewrite length_fmap, length_bytes).
    rewrite check_digit_arith by by apply is_digit_range.
    reflexivity.
  - rewrite len_app, Hlen. reflexivity.
  - rewrite every_app, Hdig. cbn [every]. by rewrite Hc.
Qed.

Lemma check_digit_unique_witness :
  len "000000000000001" = 15 /\ every is_digit "000000000000001" = true
  /\ exists d : Z,
       (0 <= d <= 9)%Z
       /\ FromRaw "0000000000000019" ≫= Info.Validate
          = if (9 =? d)%Z then Ok tt else Err ErrValidate.
Proof.
  split; [reflexivity|]. split; [reflexivity|].
  destruct (check_digit_unique "000000000000001" eq_refl eq_refl) as (d & Hd & H).
  exists d. split; [exact Hd|]. exact (H "9"%char eq_refl).
Defined.

Lemma luhn_term_range (idx : nat) (d : Z) :
  (0 <= d <= 9)%Z -> (0 <= luhn_term idx d <= 9)%Z.
Proof.
  intros Hd. unfold luhn_term. destruct (Nat.even idx); [lia|].
  destruct (Z.ltb_spec 9 (2 * d)); lia.
Qed.

(** Doubling a digit and taking 9 off above 9 sends two digits to two
    digits. *)
Lemma luhn_term_inj (idx : nat) (d d' : Z) :
  (0 <= d <= 9)%Z -> (0 <= d' <= 9)%Z -> d <> d' ->
  luhn_term idx d <> luhn_term idx d'.
Proof.
  intros Hd Hd' Hne. unfold luhn_term. destruct (Nat.even idx); [exact Hne|].
  destruct (Z.ltb_spec 9 (2 * d)), (Z.ltb_spec 9 (2 * d')); lia.
Qed.

Lemma len_set_char (i : nat) (c : ascii) (s : string) :
  len (set_char i c s) = len s.
Proof.
  revert i. induction s as [|a s IH]; intros i; [by destruct i|].
  destruct i as [|i]; cbn [set_char String.length]; [done|]. by rewrite IH.
Qed.

Lemma every_set_char (f : ascii -> bool) (i : nat) (c : ascii) (s : string) :
  f c = true -> every f s = true -> every f (set_char i c s) = true.
Proof.
  intros Hc. revert i. induction s as [|a s IH]; intros i; [by destruct i|].
  cbn [every]. intros [Ha Hs]%andb_true_iff.
  destruct i as [|i]; cbn [set_char every].
  - by rewrite Hc, Hs.
  - by rewrite Ha, IH.
Qed.

(** One position of sixteen digits: the totals before and after the change
    of the digit at this position are not both multiples of 10. *)
Ltac changed_digit i Hget Hold c Hc :=
  cbn [String.get] in Hget;
  lazymatch type of Hget with
  | Some ?a <> Some _ =>
      let Ha := fresh "Ha" in
      let Hdv := fresh "Hdv" in
      assert (is_digit a = true) as Ha by assumption;
      assert (digit_value (byte_of c) <> digit_value (byte_of a)) as Hdv
        by (unfold digit_value; intros E; apply Hget; f_equal;
            symmetry; apply byte_of_inj; lia);
      pose proof (is_digit_range c Hc);
      pose proof (is_digit_range a Ha);
      pose proof (luhn_term_inj i _ _
                    (is_digit_range c Hc) (is_digit_range a Ha) Hdv);
      pose proof (luhn_term_range i _ (is_digit_range c Hc));
      pose proof (luhn_term_range i _ (is_digit_range a Ha))
  end;
  cbn [set_char bytes fmap list_fmap];
  unfold luhn_total in Hold |- *;
  cbn [length Nat.sub take firstn last default from_option] in Hold |- *;
  cbv [luhn_sum id] in Hold |- *;
  apply Z.eqb_neq; apply Z.eqb_eq in Hold;
  Z.to_euclidean_division_equations; lia.

(** X20. The check detects every error in one digit: when [FromRaw(str)]
    is a PAN that validates, replacing one of the sixteen characters of
    [str] by another digit gives a PAN on which [Validate] returns
    [ErrValidate]. *)
Theorem Validate_single_digit (str : string) (i : nat) (c : ascii) (p : info) :
  FromRaw str = Ok p -> Info.Validate p = Ok tt ->
  i < 16 -> is_digit c = true -> String.get i str <> Some c ->
  FromRaw (set_char i c str) ≫= Info.Validate = Err ErrValidate.
Proof.
  intros Hraw Hvalid Hi Hc Hget.
  pose proof (Constructed_wf p (by_FromRaw p str Hraw)) as Hwf.
  apply FromRaw_Ok_inv in Hraw as (Hlen & Hpan & Hsame).
  rewrite (Validate_wf p Hwf), Hsame in Hvalid. unfold Validate_spec in Hvalid.
  destruct (some is_mask str) eqn:Hmask; [done|].
  pose proof (pan_chars_digits str Hpan Hmask) as Hdig.
  fold (luhn_total (digit_value <$> bytes str)) in Hvalid.
  destruct (luhn_total (digit_value <$> bytes str) mod 10 =? 0)%Z eqn:Hold;
    [clear Hvalid|done].
  rewrite Validate_digits
    by (by rewrite ?len_set_char; try apply every_set_char).
  assert ((luhn_total (digit_value <$> bytes (set_char i c str)) mod 10 =? 0)%Z
          = false) as ->; [|done].
  clear Hwf Hsame Hpan Hmask p. explode_string Hlen.
  cbn [every] in Hdig. rewrite !andb_true_iff in Hdig.
  destruct Hdig as (? & ? & ? & ? & ? & ? & ? & ? & ? & ? & ? & ? & ? & ? & ?
                    & ? & _).
  cbn [bytes fmap list_fmap] in Hold.
  do 16 (destruct i as [|i];
         [match goal with
          | |- context [set_char ?k _ _] => changed_digit k Hget Hold c Hc
          end|]).
  lia.
Qed.

Lemma Validate_single_digit_witness :
  FromRaw "0000000000000019" = Ok (build ["0000"; "0000"; "0000"; "0019"])
  /\ Info.Validate (build ["0000"; "0000"; "0000"; "0019"]) = Ok tt
  /\ FromRaw "0000000000000519" ≫= Info.Validate = Err ErrValidate.
Proof.
  split; [reflexivity|]. split; [reflexivity|].
  apply (Validate_single_digit "0000000000000019" 13 "5"
           (build ["0000"; "0000"; "0000"; "0019"])).
  - reflexivity.
  - reflexivity.
  - lia.
  - reflexivity.
  - discriminate.
Defined.

(** X21. The last two digits count the same: the index 14 is even, so the
    digit before the check digit is not doubled, and exchanging the last
    two of sixteen digits does not change the outcome of [Validate]. An
    exchange of these two digits is therefore never detected. *)
Theorem Validate_swap_last_two (body : string) (a b : ascii) :
  len body = 14 -> every is_digit body = true ->
  is_digit a = true -> is_digit b = true ->
  FromRaw (body +:+ String a (String b "")) ≫= Info.Validate
  = FromRaw (body +:+ String b (String a "")) ≫= Info.Validate.
Proof.
  intros Hlen Hdig Ha Hb.
  rewrite !Validate_digits;
    try (rewrite len_app, Hlen; reflexivity);
    try (rewrite every_app, Hdig; cbn [every]; by rewrite Ha, Hb).
  assert (luhn_total (digit_value <$> bytes (body +:+ String a (String b "")))
          = luhn_total (digit_value <$> bytes (body +:+ String b (String a ""))))
    as ->; [|done].
  explode_string Hlen. rewrite !app_cons, !app_empty_l.
  unfold luhn_total. cbn [bytes fmap list_fmap length Nat.sub take firstn last
                          default from_option].
  cbv [luhn_sum id].
  change (luhn_term 14 ?x) with x. lia.
Qed.

Lemma Validate_swap_last_two_witness :
  len "00000000000000" = 14 /\ every is_digit "00000000000000" = true
  /\ FromRaw "0000000000000019" ≫= Info.Validate = Ok tt
  /\ FromRaw "0000000000000091" ≫= Info.Validate = Ok tt.
Proof.
  split; [reflexivity|]. split; [reflexivity|]. split; [reflexivity|].
  exact (eq_trans
           (eq_sym (Validate_swap_last_two "00000000000000" "1" "9"
                      eq_refl eq_refl eq_refl eq_refl))
           eq_refl).
Defined.
